(** * The SOP compliance engine of the construction safety monitor

    A shallow embedding of [src/sop_comparator.py] (class [SOPComparator]):
    step matching, tool and safety-equipment checks, the severity ladder of
    [analyze_sequence] and the aggregation of [generate_summary], followed
    by the properties the specification states about them.

    Python floats are binary64 values and are modelled by Rocq's primitive
    floats; exceptions are modelled by an error monad; the embedding model,
    [str.lower] and [float(str)] are interfaces of the class [Externals].
    The [print] calls of the source have no effect on the values returned
    and are left out. *)

From Stdlib Require Import ZArith Floats Bool List Ascii String Lia.
From stdpp Require Import gmap strings list pretty.

#[local] Set Warnings "-inexact-float".
#[local] Open Scope Z_scope.

(** ** Exceptions and the error monad *)

(** A raised Python exception, identified by the name of its class. *)
Record exception : Type := Exception { exc_class : string }.

Definition ValueError : exception := Exception "ValueError".
Definition RuntimeError : exception := Exception "RuntimeError".
Definition IndexError : exception := Exception "IndexError".
Definition ZeroDivisionError : exception := Exception "ZeroDivisionError".

(** A computation that returns a value ([inr]) or raises ([inl]). *)
Definition result (A : Type) : Type := (exception + A)%type.

Definition raise {A : Type} (e : exception) : result A := inl e.

#[global] Instance result_ret : MRet result := fun A x => inr x.
#[global] Instance result_bind : MBind result :=
  fun A B f m => match m with inl e => inl e | inr x => f x end.

(** [l[i]] on a Python list: [IndexError] out of range. *)
Definition py_index {A : Type} (l : list A) (i : nat) : result A :=
  match l !! i with
  | Some x => mret x
  | None => raise IndexError
  end.

(** ** Python numbers *)

(** An [int] as the binary64 value it denotes exactly (exponent 0). *)
Definition SF_of_Z (n : Z) : spec_float :=
  match n with
  | Z0 => S754_zero false
  | Zpos p => S754_finite false p 0
  | Zneg p => S754_finite true p 0
  end.

(** [float(n)] for an [int] [n]: the nearest binary64 value. *)
Definition float_of_int (n : Z) : float :=
  SF2Prim (binary_normalize prec emax n 0 false).

(** [a / b] on two [int]s: the correctly rounded quotient, and
    [ZeroDivisionError] when [b] is [0]. *)
Definition int_truediv (a b : Z) : result float :=
  if b =? 0 then raise ZeroDivisionError
  else mret (SF2Prim (SFdiv prec emax (SF_of_Z a) (SF_of_Z b))).

(** [x / n] for a [float] [x] and an [int] [n]. *)
Definition float_truediv (x : float) (n : Z) : result float :=
  if n =? 0 then raise ZeroDivisionError
  else mret (x / float_of_int n)%float.

(** [sum(xs)] over floats: starts from the [int] [0] and adds from the left
    (CPython 3.12 and later add with a compensation term; the properties
    below use the sum of the empty list only). *)
Definition py_sum (xs : list float) : float :=
  fold_left PrimFloat.add xs 0%float.

Definition round_half_even (num den : Z) : Z :=
  let q := num / den in
  let r := num mod den in
  match 2 * r ?= den with
  | Lt => q
  | Gt => q + 1
  | Eq => if Z.even q then q else q + 1
  end.

(** [round(x, ndigits)] for a [float] [x] and [ndigits >= 0]: the exact value
    of [x] is rounded to a multiple of [10^-ndigits], ties to even, and the
    decimal obtained is converted back to the nearest binary64 value. NaN,
    infinities and zeros are returned unchanged. *)
Definition py_round (x : float) (ndigits : Z) : float :=
  match Prim2SF x with
  | S754_finite s m e =>
      let p := 10 ^ ndigits in
      let n := if 0 <=? e
               then Zpos m * 2 ^ e * p
               else round_half_even (Zpos m * p) (2 ^ (- e)) in
      match n with
      | Zpos n' =>
          SF2Prim (SFdiv prec emax (S754_finite s n' 0)
                                   (S754_finite false (Z.to_pos p) 0))
      | _ => SF2Prim (S754_zero s)
      end
  | _ => x
  end.

(** ** The libraries the class calls *)

(** [SentenceTransformer(name)], [model.encode] on one text and on a list of
    texts (a batch, encoded in one call), [util.cos_sim] of one query against
    one candidate and against a batch (the row of scores), [str.lower] and
    [float(str)] ([None] when the string is not a number, where Python
    raises [ValueError]). A batch has one row per text and its row of scores
    has one score per row; nothing relates the scores of a batch to the
    scores of its texts taken one by one. *)
Class Externals : Type := {
  Model : Type;
  Tensor : Type;
  Batch : Type;
  SentenceTransformer : string -> result Model;
  encode : Model -> string -> Tensor;
  encode_list : Model -> list string -> Batch;
  rows : Batch -> nat;
  cos_sim : Tensor -> Tensor -> float;
  cos_sim_row : Tensor -> Batch -> list float;
  str_lower : string -> string;
  float_of_str : string -> option float;
  rows_encode_list :
    forall (m : Model) (texts : list string),
      rows (encode_list m texts) = length texts;
  length_cos_sim_row :
    forall (query : Tensor) (candidates : Batch),
      length (cos_sim_row query candidates) = rows candidates
}.

(** [torch.Tensor.argmax]: the running maximum is replaced by [a] when [a] is
    greater, NaN counting as the greatest value; among equal maxima the first
    index is kept. *)
Definition greater_or_nan (a b : float) : bool :=
  if is_nan a then negb (is_nan b) else (b <? a)%float.

Fixpoint argmax_from (best_idx : nat) (best : float) (i : nat)
    (xs : list float) : nat :=
  match xs with
  | [] => best_idx
  | x :: xs' =>
      if greater_or_nan x best
      then argmax_from i x (S i) xs'
      else argmax_from best_idx best (S i) xs'
  end.

Definition argmax (xs : list float) : result nat :=
  match xs with
  | [] => raise IndexError
  | x :: xs' => mret (argmax_from 0%nat x 1%nat xs')
  end.

(** [util.cos_sim(query, candidates)] with a batch of candidates: one score
    per row. With no row the matrix product inside the library has
    mismatched shapes and a [RuntimeError] is raised. *)
Definition cos_sim_batch `{Externals} (query : Tensor)
    (candidates : Batch) : result (list float) :=
  if Nat.eqb (rows candidates) 0 then raise RuntimeError
  else mret (cos_sim_row query candidates).

(** ** Data model *)

Module Severity.
Inductive t : Type := high | medium | low | none.

#[global] Instance eq_dec : EqDecision t.
Proof. solve_decision. Defined.

(** The ordering [none < medium < high] of the specification; [low] sits
    between [none] and [medium]. *)
Definition rank (s : t) : nat :=
  match s with
  | none => 0
  | low => 1
  | medium => 2
  | high => 3
  end%nat.
End Severity.

(** One step of an SOP ([required_tools] is [[]] when the key is absent). *)
Module Step.
Record t : Type := Build { action : string; required_tools : list string }.
End Step.

Module Sop.
Record t : Type := Build {
  task_name : string;
  steps : list Step.t;
  safety_equipment : list string
}.
End Sop.

(** One entry of [video_actions], absent keys replaced by the defaults of the
    [.get] calls of [analyze_sequence]. *)
Module Action.
Record t : Type := Build {
  timestamp : float;
  worker_action : string;
  tools_visible : list string;
  safety_equipment : list string;
  location_zone : string;
  potential_hazards : list string
}.
End Action.

Module ToolCheck.
Record t : Type := Build {
  is_compliant : bool;
  missing_tools : list string;
  wrong_tools : list string;
  observed : list string;
  required : list string
}.
End ToolCheck.

Module SafetyCheck.
Record t : Type := Build {
  is_compliant : bool;
  missing_equipment : list string;
  observed : list string;
  required : list string
}.
End SafetyCheck.

Module Result.
Record t : Type := Build {
  frame_number : nat;
  timestamp : float;
  observed_action : string;
  matched_sop_step : string;
  step_number : nat;
  similarity_score : float;
  is_deviation : bool;
  severity : Severity.t;
  tool_compliance : ToolCheck.t;
  safety_compliance : SafetyCheck.t;
  location : string;
  potential_hazards : list string
}.
End Result.

Module Summary.
Record t : Type := Build {
  total_frames_analyzed : nat;
  total_deviations : nat;
  high_severity_count : nat;
  medium_severity_count : nat;
  compliance_rate : float;
  average_similarity : float;
  tool_violations : nat;
  safety_violations : nat;
  deviation_timestamps : list float
}.
End Summary.

(** The instance attributes set by [__init__]. *)
Record SOPComparator `{Externals} : Type := {
  model_name : string;
  model : Model;
  threshold : float
}.

(** ** The methods of [SOPComparator] *)

(** [os.getenv(key, default)]. *)
Definition getenv (environ : gmap string string) (key default : string)
    : string :=
  match environ !! key with
  | Some v => v
  | None => default
  end.

(** [model_name or os.getenv("SIMILARITY_MODEL", ...)]: [None] and the empty
    string are falsy. *)
Definition resolve_model_name (environ : gmap string string)
    (model_name : option string) : string :=
  match model_name with
  | Some (String c s) => String c s
  | _ => getenv environ "SIMILARITY_MODEL"
                "sentence-transformers/all-MiniLM-L6-v2"
  end.

(** [float(os.getenv("SIMILARITY_THRESHOLD", 0.70))]. *)
Definition read_threshold `{Externals} (environ : gmap string string)
    : result float :=
  match environ !! "SIMILARITY_THRESHOLD" with
  | None => mret 0.70%float
  | Some s =>
      match float_of_str s with
      | Some f => mret f
      | None => raise ValueError
      end
  end.

(** [SOPComparator.__init__]: [environ] is [os.environ]. *)
Definition init `{Externals} (environ : gmap string string)
    (model_name : option string) : result SOPComparator :=
  let name := resolve_model_name environ model_name in
  m ← SentenceTransformer name;
  th ← read_threshold environ;
  mret {| model_name := name; model := m; threshold := th |}.

(** [comparator.threshold = value], as [main.py] and [app.py] assign it. *)
Definition set_threshold `{Externals} (self : SOPComparator) (value : float)
    : SOPComparator :=
  {| model_name := model_name self; model := model self; threshold := value |}.

(** [SOPComparator.compute_similarity]. *)
Definition compute_similarity `{Externals} (self : SOPComparator)
    (action sop_step : string) : float :=
  cos_sim (encode (model self) action) (encode (model self) sop_step).

(** [SOPComparator.find_best_match]. *)
Definition find_best_match `{Externals} (self : SOPComparator)
    (action : string) (sop_steps : list Step.t)
    : result (nat * float * Step.t) :=
  let sop_descriptions := Step.action <$> sop_steps in
  let action_embedding := encode (model self) action in
  let sop_embeddings := encode_list (model self) sop_descriptions in
  similarities ← cos_sim_batch action_embedding sop_embeddings;
  best_idx ← argmax similarities;
  best_score ← py_index similarities best_idx;
  best_step ← py_index sop_steps best_idx;
  mret (best_idx, best_score, best_step).

(** [tool not in tools] on a list of strings. *)
Definition not_in (tool : string) (tools : list string) : bool :=
  negb (bool_decide (tool ∈ tools)).

(** [SOPComparator.check_tool_compliance]. *)
Definition check_tool_compliance `{Externals}
    (observed_tools required_tools : list string) : ToolCheck.t :=
  let observed_tools_lower := str_lower <$> observed_tools in
  let required_tools_lower := str_lower <$> required_tools in
  let missing_tools :=
    List.filter (fun tool => not_in tool observed_tools_lower)
                required_tools_lower in
  let wrong_tools :=
    List.filter (fun tool => not_in tool required_tools_lower
                             && negb (bool_decide (tool = "")))
                observed_tools_lower in
  let is_compliant := Nat.eqb (length missing_tools) 0 in
  {| ToolCheck.is_compliant := is_compliant;
     ToolCheck.missing_tools := missing_tools;
     ToolCheck.wrong_tools := wrong_tools;
     ToolCheck.observed := observed_tools_lower;
     ToolCheck.required := required_tools_lower |}.

(** [SOPComparator.check_safety_equipment]. *)
Definition check_safety_equipment `{Externals}
    (observed_equipment required_equipment : list string) : SafetyCheck.t :=
  let observed_lower := str_lower <$> observed_equipment in
  let required_lower := str_lower <$> required_equipment in
  let missing_equipment :=
    List.filter (fun eq => not_in eq observed_lower) required_lower in
  {| SafetyCheck.is_compliant := Nat.eqb (length missing_equipment) 0;
     SafetyCheck.missing_equipment := missing_equipment;
     SafetyCheck.observed := observed_lower;
     SafetyCheck.required := required_lower |}.

(** The deviation test of [analyze_sequence] (the assignment to
    [is_deviation]), on the score of the best match and the two
    [is_compliant] flags. *)
Definition deviation_test (similarity threshold : float)
    (tool_ok safety_ok : bool) : bool :=
  (similarity <? threshold)%float || negb tool_ok || negb safety_ok.

(** The [if]/[elif] chain of [analyze_sequence] that assigns [severity]. *)
Definition severity_chain (similarity threshold : float)
    (tool_ok safety_ok : bool) : Severity.t :=
  if (similarity <? 0.5)%float then Severity.high
  else if (similarity <? threshold)%float then Severity.medium
  else if negb safety_ok then Severity.high
  else if negb tool_ok then Severity.medium
  else Severity.low.

(** The ["severity"] entry of a result:
    [severity if is_deviation else "none"]. *)
Definition reported_severity (similarity threshold : float)
    (tool_ok safety_ok : bool) : Severity.t :=
  if deviation_test similarity threshold tool_ok safety_ok
  then severity_chain similarity threshold tool_ok safety_ok
  else Severity.none.

(** The body of the loop of [analyze_sequence] for the [i]-th action. *)
Definition analyze_action `{Externals} (self : SOPComparator) (sop : Sop.t)
    (i : nat) (action_data : Action.t) : result Result.t :=
  let sop_steps := Sop.steps sop in
  let action_desc := Action.worker_action action_data in
  let timestamp := Action.timestamp action_data in
  '(step_idx, similarity, matched_step) ←
    find_best_match self action_desc sop_steps;
  let tool_check :=
    check_tool_compliance (Action.tools_visible action_data)
                          (Step.required_tools matched_step) in
  let safety_check :=
    check_safety_equipment (Action.safety_equipment action_data)
                           (Sop.safety_equipment sop) in
  let tool_ok := ToolCheck.is_compliant tool_check in
  let safety_ok := SafetyCheck.is_compliant safety_check in
  mret {| Result.frame_number := i;
          Result.timestamp := timestamp;
          Result.observed_action := action_desc;
          Result.matched_sop_step := Step.action matched_step;
          Result.step_number := (step_idx + 1)%nat;
          Result.similarity_score := py_round similarity 3;
          Result.is_deviation :=
            deviation_test similarity (threshold self) tool_ok safety_ok;
          Result.severity :=
            reported_severity similarity (threshold self) tool_ok safety_ok;
          Result.tool_compliance := tool_check;
          Result.safety_compliance := safety_check;
          Result.location := Action.location_zone action_data;
          Result.potential_hazards := Action.potential_hazards action_data |}.

(** The loop over [enumerate(video_actions)], from index [i] on: results are
    appended in order and the first exception ends the loop. *)
Fixpoint analyze_from `{Externals} (self : SOPComparator) (sop : Sop.t)
    (i : nat) (video_actions : list Action.t) : result (list Result.t) :=
  match video_actions with
  | [] => mret []
  | action_data :: rest =>
      r ← analyze_action self sop i action_data;
      rs ← analyze_from self sop (S i) rest;
      mret (r :: rs)
  end.

(** [SOPComparator.analyze_sequence]. *)
Definition analyze_sequence `{Externals} (self : SOPComparator)
    (video_actions : list Action.t) (sop : Sop.t) : result (list Result.t) :=
  analyze_from self sop 0%nat video_actions.

Definition tool_violation (r : Result.t) : bool :=
  negb (ToolCheck.is_compliant (Result.tool_compliance r)).

Definition safety_violation (r : Result.t) : bool :=
  negb (SafetyCheck.is_compliant (Result.safety_compliance r)).

Definition has_severity (s : Severity.t) (r : Result.t) : bool :=
  bool_decide (Result.severity r = s).

(** [SOPComparator.generate_summary]. The [int] [0] of the two guarded
    branches is the float zero. *)
Definition generate_summary (compliance_results : list Result.t)
    : result Summary.t :=
  let total_frames := length compliance_results in
  let deviations := List.filter Result.is_deviation compliance_results in
  let high_severity := List.filter (has_severity Severity.high) deviations in
  let medium_severity :=
    List.filter (has_severity Severity.medium) deviations in
  avg_similarity ←
    (if (0 <? total_frames)%nat
     then float_truediv (py_sum (Result.similarity_score <$> compliance_results))
                        (Z.of_nat total_frames)
     else mret 0%float);
  let tool_violations := length (List.filter tool_violation compliance_results) in
  let safety_violations :=
    length (List.filter safety_violation compliance_results) in
  compliance_rate ←
    (if (0 <? total_frames)%nat
     then q ← int_truediv (Z.of_nat total_frames - Z.of_nat (length deviations))
                          (Z.of_nat total_frames);
          mret (py_round (q * 100)%float 1)
     else mret 0%float);
  mret {| Summary.total_frames_analyzed := total_frames;
          Summary.total_deviations := length deviations;
          Summary.high_severity_count := length high_severity;
          Summary.medium_severity_count := length medium_severity;
          Summary.compliance_rate := compliance_rate;
          Summary.average_similarity := py_round avg_similarity 3;
          Summary.tool_violations := tool_violations;
          Summary.safety_violations := safety_violations;
          Summary.deviation_timestamps := Result.timestamp <$> deviations |}.

(** ** The specification's wording of the classifier *)

(** The ordered rule list of the specification, first matching rule winning,
    with [none] as the outcome of rule 5. *)
Definition rule_list_severity (similarity_score threshold : float)
    (tool_ok safety_ok : bool) : Severity.t :=
  if (similarity_score <? 0.5)%float then Severity.high
  else if (similarity_score <? threshold)%float then Severity.medium
  else if negb safety_ok then Severity.high
  else if negb tool_ok then Severity.medium
  else Severity.none.

(** [100 * (total - deviations) / total], as the specification writes the
    compliance rate. *)
Definition spec_compliance_rate (total deviations : nat) : float :=
  (100 * float_of_int (Z.of_nat total - Z.of_nat deviations)
   / float_of_int (Z.of_nat total))%float.

(** ** A deterministic stand-in for the libraries *)

Module Stub.
Definition lower_ascii (c : ascii) : ascii :=
  let n := nat_of_ascii c in
  if (65 <=? n)%nat && (n <=? 90)%nat then ascii_of_nat (n + 32) else c.

Fixpoint lower (s : string) : string :=
  match s with
  | EmptyString => EmptyString
  | String c s' => String (lower_ascii c) (lower s')
  end.

Fixpoint common_prefix (a b : string) : nat :=
  match a, b with
  | String x a', String y b' =>
      if Ascii.eqb x y then S (common_prefix a' b') else 0%nat
  | _, _ => 0%nat
  end.

(** The share of the longer text that the common prefix covers. *)
Definition prefix_similarity (a b : string) : float :=
  (float_of_int (Z.of_nat (common_prefix a b))
   / float_of_int (Z.of_nat (Nat.max (String.length a) (String.length b))))%float.

(** The decimal strings used below, as [float] reads them. *)
Definition parse_float (s : string) : option float :=
  if String.eqb s "0.3" then Some 0.3%float
  else if String.eqb s "0.7" then Some 0.7%float
  else if String.eqb s "1.5" then Some 1.5%float
  else None.

Definition externals : Externals := {|
Model := unit;
Tensor := string;
Batch := list string;
SentenceTransformer := fun _ => mret tt;
encode := fun _ text => text;
encode_list := fun _ texts => texts;
rows := length;
cos_sim := prefix_similarity;
cos_sim_row := fun query candidates => prefix_similarity query <$> candidates;
str_lower := lower;
float_of_str := parse_float;
rows_encode_list := fun _ _ => eq_refl;
length_cos_sim_row :=
  fun query candidates => length_fmap (prefix_similarity query) candidates
|}.

(** A library whose batch scores depend on the position in the batch, as the
    scores of a batch encoded with padding do: the score at position [i] is
    the share of prefix raised by [i] times [2^-23]. *)
Definition positional_row (query : string) (candidates : list string)
    : list float :=
  imap (fun i text =>
          (prefix_similarity query text
           + float_of_int (Z.of_nat i) * 0x1p-23)%float) candidates.

Definition positional : Externals := {|
Model := unit;
Tensor := string;
Batch := list string;
SentenceTransformer := fun _ => mret tt;
encode := fun _ text => text;
encode_list := fun _ texts => texts;
rows := length;
cos_sim := prefix_similarity;
cos_sim_row := positional_row;
str_lower := lower;
float_of_str := parse_float;
rows_encode_list := fun _ _ => eq_refl;
length_cos_sim_row := fun query candidates => length_imap _ candidates
|}.

Definition positional_comparator : @SOPComparator positional :=
  {| model_name := "stub"; model := tt : @Model positional;
     threshold := 0.7 |}.

Definition comparator (th : float) : @SOPComparator externals :=
  {| model_name := "stub"; model := tt : @Model externals; threshold := th |}.

Definition measure : Step.t := Step.Build "abcde" ["Tape Measure"].
Definition cut : Step.t := Step.Build "vwxyz" ["saw"].

(** A later step with the description of [measure]. *)
Definition measure_again : Step.t := Step.Build "abcde" ["ruler"].

Definition sop : Sop.t :=
  Sop.Build "Test Task" [measure; cut] ["hard hat"; "safety glasses"].

Definition full_kit : list string := ["Hard Hat"; "safety glasses"].

(** An action whose best match is [measure] with score
    [common_prefix / 5]. *)
Definition act (text : string) (tools equipment : list string) : Action.t :=
  Action.Build 5%float text tools equipment "work area" [].

Definition exact : Action.t := act "abcde" ["tape measure"] full_kit.
Definition near_miss : Action.t := act "abxxx" ["tape measure"] full_kit.
Definition bare_06 : Action.t := act "abcxx" ["tape measure"] ["hard hat"].
Definition bare_08 : Action.t := act "abcdx" ["tape measure"] ["hard hat"].

Definition actions : list Action.t := [exact; near_miss; bare_06; bare_08].

(** The results of [analyze_sequence] with threshold [th], and [[]] if it
    raises. *)
Definition run (th : float) (video_actions : list Action.t)
    : list Result.t :=
  match @analyze_sequence externals (comparator th) video_actions sop with
  | inr results => results
  | inl _ => []
  end.

Definition res (dev : bool) (sev : Severity.t) (score : float) : Result.t :=
  {| Result.frame_number := 0;
     Result.timestamp := 10%float;
     Result.observed_action := "";
     Result.matched_sop_step := "";
     Result.step_number := 1;
     Result.similarity_score := score;
     Result.is_deviation := dev;
     Result.severity := sev;
     Result.tool_compliance := ToolCheck.Build (negb dev) [] [] [] [];
     Result.safety_compliance := SafetyCheck.Build (negb dev) [] [] [];
     Result.location := "unknown";
     Result.potential_hazards := [] |}.
End Stub.

(** What [analyze_sequence] computed for action [a] to obtain result [r]:
    the best match with its unrounded [similarity], and the two checks stored
    in [r]. *)
Definition evaluated_with `{Externals} (self : SOPComparator) (sop : Sop.t)
    (a : Action.t) (r : Result.t) (similarity : float) : Prop :=
  exists (idx : nat) (step : Step.t),
    find_best_match self (Action.worker_action a) (Sop.steps sop)
      = inr (idx, similarity, step)
    /\ Result.tool_compliance r
       = check_tool_compliance (Action.tools_visible a)
                               (Step.required_tools step)
    /\ Result.safety_compliance r
       = check_safety_equipment (Action.safety_equipment a)
                                (Sop.safety_equipment sop).

(** [round((total - deviations) / total * 100, 1)], as [generate_summary]
    evaluates it for a non-empty list. *)
Definition rounded_compliance_rate (total deviations : nat) : float :=
  py_round
    (SF2Prim (SFdiv prec emax
                (SF_of_Z (Z.of_nat total - Z.of_nat deviations))
                (SF_of_Z (Z.of_nat total))) * 100)%float 1.

(** ** Auxiliary notions for the proofs *)

Definition SF_is_nan (a : spec_float) : bool :=
  match a with
  | S754_nan => true
  | _ => false
  end.

Definition SF_greater_or_nan (a b : spec_float) : bool :=
  if SF_is_nan a then negb (SF_is_nan b) else SFltb b a.

(** The row of scores that [find_best_match] computes for the steps. *)
Definition batch_similarities `{Externals} (self : SOPComparator)
    (action : string) (sop_steps : list Step.t) : list float :=
  cos_sim_row (encode (model self) action)
              (encode_list (model self) (Step.action <$> sop_steps)).

(** [v] is the first maximum of [l], at index [k]: no element of [l] is
    greater than [v], and [v] is greater than every element before [k]. *)
Definition first_maximum (l : list float) (k : nat) (v : float) : Prop :=
  l !! k = Some v
  /\ (forall j x, l !! j = Some x -> greater_or_nan x v = false)
  /\ (forall j x, (j < k)%nat -> l !! j = Some x -> greater_or_nan v x = true).


(** ** Notions used by the further properties *)

(** What assigning a new threshold leaves unchanged in a result, and the
    deviations it keeps when the threshold is raised. *)
Definition same_but_verdict (old_threshold new_threshold : float)
    (r r' : Result.t) : Prop :=
  Result.frame_number r' = Result.frame_number r
  /\ Result.step_number r' = Result.step_number r
  /\ Result.matched_sop_step r' = Result.matched_sop_step r
  /\ Result.similarity_score r' = Result.similarity_score r
  /\ Result.tool_compliance r' = Result.tool_compliance r
  /\ Result.safety_compliance r' = Result.safety_compliance r
  /\ ((old_threshold <=? new_threshold)%float = true ->
      Result.is_deviation r = true -> Result.is_deviation r' = true).

(** The exit code chosen at the end of [main] in [src/main.py], once the
    reports are written: 2 with a high-severity deviation, 1 with any other
    deviation, 0 otherwise. *)
Definition exit_status (summary : Summary.t) : Z :=
  if (0 <? Summary.high_severity_count summary)%nat then 2
  else if (0 <? Summary.total_deviations summary)%nat then 1
  else 0.

(** The grade and its icon computed by
    [AlertGenerator.generate_summary_report] from the compliance rate. *)
Definition compliance_grade (compliance_rate : float) : string * string :=
  if (90 <=? compliance_rate)%float then ("A - Excellent", "🌟")
  else if (80 <=? compliance_rate)%float then ("B - Good", "✅")
  else if (70 <=? compliance_rate)%float then ("C - Acceptable", "🟡")
  else if (60 <=? compliance_rate)%float then ("D - Needs Improvement", "🟠")
  else ("F - Critical Issues", "🔴").

(** The test of [generate_summary_report] that adds the two training
    recommendations. *)
Definition recommends_training (compliance_rate : float) : bool :=
  (compliance_rate <? 70)%float.

(** The grades from worst to best. *)
Definition grade_rank (grade : string) : nat :=
  if String.eqb grade "A - Excellent" then 4
  else if String.eqb grade "B - Good" then 3
  else if String.eqb grade "C - Acceptable" then 2
  else if String.eqb grade "D - Needs Improvement" then 1
  else 0.

(** ** Frame extraction ([src/video_analyzer.py]) *)

Definition OverflowError : exception := Exception "OverflowError".

(** [int(x)] for a [float] [x]: truncation towards zero; [ValueError] on NaN
    and [OverflowError] on an infinity. *)
Definition py_int (x : float) : result Z :=
  match Prim2SF x with
  | S754_nan => raise ValueError
  | S754_infinity _ => raise OverflowError
  | S754_zero _ => mret 0
  | S754_finite s m e =>
      let magnitude := if 0 <=? e then Zpos m * 2 ^ e
                       else Zpos m / 2 ^ (- e) in
      mret (if s then - magnitude else magnitude)
  end.

(** [a % b] on two [int]s: the remainder has the sign of [b];
    [ZeroDivisionError] when [b] is [0]. *)
Definition int_mod (a b : Z) : result Z :=
  if b =? 0 then raise ZeroDivisionError else mret (a mod b).

Module Video.
(** A [cv2.VideoCapture] as [extract_frames] uses it: whether it opened, the
    value of [CAP_PROP_FPS], and the frames that successive [read] calls
    return before the first failed read. *)
Record Capture (Image : Type) : Type := {
  isOpened : bool;
  fps_property : float;
  frames : list Image
}.
Arguments isOpened {Image}.
Arguments fps_property {Image}.
Arguments frames {Image}.

(** One entry of [frames_data]. *)
Record FrameData : Type := {
  frame_number : Z;
  timestamp : float;
  path : string
}.
End Video.

(** The path of the [extracted_count]-th temporary frame. *)
Definition temp_frame_path (extracted_count : Z) : string :=
  "/tmp/frame_" +:+ pretty extracted_count +:+ ".jpg".

(** The [while] loop of [extract_frames], from the counters [frame_count]
    and [extracted_count] on, over the frames still to be read. The image
    written to the temporary path is not part of the value returned. *)
Fixpoint extract_loop {Image : Type} (fps frame_interval : Z)
    (frame_count extracted_count : Z) (to_read : list Image)
    : result (list Video.FrameData) :=
  match to_read with
  | [] => mret []
  | frame :: rest =>
      remainder ← int_mod frame_count frame_interval;
      if remainder =? 0
      then
        timestamp ← int_truediv frame_count fps;
        let temp_frame_path := temp_frame_path extracted_count in
        frames_data ←
          extract_loop fps frame_interval (frame_count + 1)
            (extracted_count + 1) rest;
        mret ({| Video.frame_number := frame_count;
                 Video.timestamp := timestamp;
                 Video.path := temp_frame_path |} :: frames_data)
      else
        extract_loop fps frame_interval (frame_count + 1) extracted_count
          rest
  end.

(** [VideoAnalyzer.extract_frames], on the capture opened for the path. *)
Definition extract_frames {Image : Type} (cap : Video.Capture Image)
    (frame_rate : Z) : result (list Video.FrameData) :=
  if negb (Video.isOpened cap) then raise ValueError
  else
    fps ← py_int (Video.fps_property cap);
    let frame_interval := fps * frame_rate in
    extract_loop fps frame_interval 0 0 (Video.frames cap).

Module Clip.
(** A capture at 30 frames per second with 130 frames. *)
Definition capture : Video.Capture nat :=
  {| Video.isOpened := true;
     Video.fps_property := 30%float;
     Video.frames := seq 0 130 |}.
End Clip.

(** ** Alerts ([src/alert_generator.py]) *)

(** The operations of Python on numbers that the alert texts go through:
    [x // y] and [x % y] on floats (with [y] other than 0), [format(n, "02d")]
    and [format(x, ".1%")]. *)
Class Formats : Type := {
  float_floordiv : float -> float -> float;
  float_mod : float -> float -> float;
  format_02d : Z -> string;
  format_percent_1 : float -> string
}.

(** The newline character. *)
Definition nl : string := String (ascii_of_nat 10) "".

(** [', '.join(items)]. *)
Definition join_comma (items : list string) : string :=
  String.concat ", " items.

(** The instance attribute of [AlertGenerator]. *)
Record AlertGenerator : Type := { alert_count : Z }.

(** [AlertGenerator.__init__]. *)
Definition new_alert_generator : AlertGenerator := {| alert_count := 0 |}.

(** [AlertGenerator.format_timestamp]. *)
Definition format_timestamp `{Formats} (seconds : float) : result string :=
  minutes ← py_int (float_floordiv seconds 60);
  secs ← py_int (float_mod seconds 60);
  mret (format_02d minutes +:+ ":" +:+ format_02d secs).

(** [severity.upper()] on the four severities. *)
Definition severity_upper (s : Severity.t) : string :=
  match s with
  | Severity.high => "HIGH"
  | Severity.medium => "MEDIUM"
  | Severity.low => "LOW"
  | Severity.none => "NONE"
  end.

(** [severity_icons.get(severity, ...)]. *)
Definition severity_icon (s : Severity.t) : string :=
  match s with
  | Severity.high => "🔴"
  | Severity.medium => "🟡"
  | Severity.low => "🟢"
  | Severity.none => "⚠️"
  end.

Definition alert_rule : string :=
  "━━━━━━━━━━━━━━━━━━━━━━━━━━━━━━━━━━━━━━━━━━━━━━".

(** The text that [generate_deviation_alert] builds once the timestamp is
    formatted. *)
Definition alert_text `{Formats} (compliance_result : Result.t)
    (timestamp : string) : string :=
  let severity := severity_upper (Result.severity compliance_result) in
  let icon := severity_icon (Result.severity compliance_result) in
  let alert :=
    nl +:+ icon +:+ " COMPLIANCE ALERT - " +:+ severity +:+ " SEVERITY" +:+ nl
    +:+ alert_rule +:+ nl
    +:+ "Time: " +:+ timestamp +:+ nl
    +:+ "Step #" +:+ pretty (Result.step_number compliance_result) +:+ nl
    +:+ nl
    +:+ "Expected Action:" +:+ nl
    +:+ "  " +:+ Result.matched_sop_step compliance_result +:+ nl
    +:+ nl
    +:+ "Observed Action:" +:+ nl
    +:+ "  " +:+ Result.observed_action compliance_result +:+ nl
    +:+ nl
    +:+ "Similarity Score: "
    +:+ format_percent_1 (Result.similarity_score compliance_result) +:+ nl in
  let tool_comp := Result.tool_compliance compliance_result in
  let alert :=
    if negb (ToolCheck.is_compliant tool_comp)
    then
      let alert := alert +:+ nl +:+ "⚠️ TOOL VIOLATIONS:" +:+ nl in
      let alert :=
        match ToolCheck.missing_tools tool_comp with
        | [] => alert
        | _ => alert +:+ "  Missing: "
               +:+ join_comma (ToolCheck.missing_tools tool_comp) +:+ nl
        end in
      match ToolCheck.wrong_tools tool_comp with
      | [] => alert
      | _ => alert +:+ "  Wrong tools used: "
             +:+ join_comma (ToolCheck.wrong_tools tool_comp) +:+ nl
      end
    else alert in
  let safety_comp := Result.safety_compliance compliance_result in
  let alert :=
    if negb (SafetyCheck.is_compliant safety_comp)
    then
      let alert := alert +:+ nl +:+ "🚨 SAFETY EQUIPMENT VIOLATIONS:" +:+ nl in
      match SafetyCheck.missing_equipment safety_comp with
      | [] => alert
      | _ => alert +:+ "  Missing: "
             +:+ join_comma (SafetyCheck.missing_equipment safety_comp) +:+ nl
      end
    else alert in
  let hazards := Result.potential_hazards compliance_result in
  let alert :=
    match hazards with
    | [] => alert
    | _ =>
        fold_left (fun alert hazard => alert +:+ "  • " +:+ hazard +:+ nl)
          hazards (alert +:+ nl +:+ "⚠️ POTENTIAL HAZARDS DETECTED:" +:+ nl)
    end in
  alert +:+ alert_rule +:+ nl.

(** [AlertGenerator.generate_deviation_alert]: the value returned or the
    exception raised, and the generator afterwards. *)
Definition generate_deviation_alert `{Formats} (self : AlertGenerator)
    (compliance_result : Result.t) : result string * AlertGenerator :=
  match format_timestamp (Result.timestamp compliance_result) with
  | inl e => (inl e, self)
  | inr timestamp =>
      (inr (alert_text compliance_result timestamp),
       {| alert_count := alert_count self + 1 |})
  end.

(** [AlertGenerator.generate_batch_alerts]. *)
Fixpoint generate_batch_alerts `{Formats} (self : AlertGenerator)
    (compliance_results : list Result.t)
    : result (list string) * AlertGenerator :=
  match compliance_results with
  | [] => (inr [], self)
  | result :: rest =>
      if Result.is_deviation result
      then
        match generate_deviation_alert self result with
        | (inl e, self') => (inl e, self')
        | (inr alert, self') =>
            match generate_batch_alerts self' rest with
            | (inl e, self'') => (inl e, self'')
            | (inr alerts, self'') => (inr (alert :: alerts), self'')
            end
        end
      else generate_batch_alerts self rest
  end.

Module StubFormats.
(** [floor(x / y)], which agrees with [x // y] wherever the quotient is
    exact. *)
Definition floordiv (x y : float) : float :=
  match py_int (x / y)%float with
  | inr q =>
      if ((x / y) <? float_of_int q)%float then float_of_int (q - 1)
      else float_of_int q
  | inl _ => (x / y)%float
  end.

Definition fmod (x y : float) : float :=
  (x - floordiv x y * y)%float.

Definition two_digits (n : Z) : string :=
  if (0 <=? n) && (n <? 10) then "0" +:+ pretty n else pretty n.

Definition percent_1 (x : float) : string :=
  match Prim2SF (x * 100)%float with
  | S754_nan => "nan%"
  | S754_infinity s => (if s then "-inf%" else "inf%")
  | S754_zero s => (if s then "-0.0%" else "0.0%")
  | S754_finite s m e =>
      let tenths := if 0 <=? e then Zpos m * 2 ^ e * 10
                    else round_half_even (Zpos m * 10) (2 ^ (- e)) in
      (if s then "-" else "") +:+ pretty (tenths / 10) +:+ "."
      +:+ pretty (tenths mod 10) +:+ "%"
  end.

Definition formats : Formats := {|
  float_floordiv := floordiv;
  float_mod := fmod;
  format_02d := two_digits;
  format_percent_1 := percent_1
|}.

(** A deviating result with the given timestamp. *)
Definition deviation_at (timestamp : float) : Result.t :=
  {| Result.frame_number := 0;
     Result.timestamp := timestamp;
     Result.observed_action := "abxxx";
     Result.matched_sop_step := "abcde";
     Result.step_number := 1;
     Result.similarity_score := 0.4;
     Result.is_deviation := true;
     Result.severity := Severity.high;
     Result.tool_compliance := ToolCheck.Build true [] [] [] [];
     Result.safety_compliance := SafetyCheck.Build true [] [] [];
     Result.location := "unknown";
     Result.potential_hazards := [] |}.
End StubFormats.

(** ** API key validation ([src/utils.py]) *)

(** The tests [c.isalnum()] and [c.isspace()] of Python on one code
    point. *)
Class Unicode : Type := {
  char_isalnum : N -> bool;
  char_isspace : N -> bool
}.

Module Utils.
(** [s.replace(c, "")] for a one-character [c], on a [str] given as its list
    of code points. *)
Definition remove_char (c : N) (s : list N) : list N :=
  List.filter (fun x => negb (N.eqb x c)) s.

(** [s.isalnum()]: at least one character, and all of them alphanumeric. *)
Definition isalnum `{Unicode} (s : list N) : bool :=
  match s with
  | [] => false
  | _ => forallb char_isalnum s
  end.

(** [validate_api_key], on a [str] given as its list of code points (45 is
    the hyphen and 95 the underscore). *)
Definition validate_api_key `{Unicode} (api_key : list N) : bool :=
  if match api_key with [] => true | _ => false end
     || (length api_key <? 20)%nat
  then false
  else isalnum (remove_char 95 (remove_char 45 api_key)).

(** The two tests on the code points of ASCII. *)
Definition ascii_chars : Unicode := {|
  char_isalnum := fun c =>
    ((48 <=? c) && (c <=? 57) || (65 <=? c) && (c <=? 90)
     || (97 <=? c) && (c <=? 122))%N;
  char_isspace := fun c =>
    ((9 <=? c) && (c <=? 13) || (28 <=? c) && (c <=? 32))%N
|}.

(** The code points of ["AI-za_0123456789abcdef"]. *)
Definition sample_key : list N :=
  [65; 73; 45; 122; 97; 95; 48; 49; 50; 51; 52; 53; 54; 55; 56; 57; 97; 98;
   99; 100; 101; 102]%N.
End Utils.

(** ** The reply of the vision model ([src/video_analyzer.py]) *)

(** [s.lstrip()], [s.rstrip()] and [s.strip()] on a [str] given as its list
    of code points. *)
Fixpoint py_lstrip `{Unicode} (s : list N) : list N :=
  match s with
  | [] => []
  | c :: rest => if char_isspace c then py_lstrip rest else s
  end.

Definition py_rstrip `{Unicode} (s : list N) : list N :=
  rev (py_lstrip (rev s)).

Definition py_strip `{Unicode} (s : list N) : list N :=
  py_rstrip (py_lstrip s).

(** [s.startswith(prefix)] and [s.endswith(suffix)]. *)
Definition startswith (s prefix : list N) : bool :=
  bool_decide (take (length prefix) s = prefix).

Definition endswith (s suffix : list N) : bool :=
  bool_decide (drop (length s - length suffix) s = suffix).

(** Three backquotes, and three backquotes followed by [json]. *)
Definition fence : list N := [96; 96; 96]%N.
Definition fence_json : list N := [96; 96; 96; 106; 115; 111; 110]%N.

(** What [analyze_frame] and [analyze_video_direct] do to the text of the
    reply before it is parsed as JSON. *)
Definition strip_code_fence `{Unicode} (text : list N) : list N :=
  let response_text := py_strip text in
  let response_text :=
    if startswith response_text fence_json then drop 7 response_text
    else response_text in
  let response_text :=
    if startswith response_text fence then drop 3 response_text
    else response_text in
  let response_text :=
    if endswith response_text fence
    then take (length response_text - 3) response_text
    else response_text in
  py_strip response_text.
(** ** Order facts on binary64 values *)

Ltac sf_compare_cases :=
  repeat match goal with
  | H : context [Pos.compare_cont Eq ?a ?b] |- _ =>
      change (Pos.compare_cont Eq a b) with (Pos.compare a b) in H
  | |- context [Pos.compare_cont Eq ?a ?b] =>
      change (Pos.compare_cont Eq a b) with (Pos.compare a b)
  end;
  repeat match goal with
  | H : context [BinInt.Z.compare ?a ?b] |- _ =>
      destruct (BinInt.Z.compare_spec a b); simpl in *
  | |- context [BinInt.Z.compare ?a ?b] =>
      destruct (BinInt.Z.compare_spec a b); simpl in *
  | H : context [Pos.compare ?a ?b] |- _ =>
      destruct (Pos.compare_spec a b); simpl in *
  | |- context [Pos.compare ?a ?b] =>
      destruct (Pos.compare_spec a b); simpl in *
  end;
  try congruence; try lia.

Ltac sf_cases :=
  unfold SF_greater_or_nan, SF_is_nan, SFltb, SFleb, SFeqb, SFcompare;
  repeat match goal with
  | x : spec_float |- _ => destruct x as [[]|[]| |[] ? ?]
  end;
  simpl; try congruence; intros; sf_compare_cases.

Lemma SFltb_leb_trans (a b c : spec_float) :
  SFltb a b = true -> SFleb b c = true -> SFltb a c = true.
Proof. sf_cases. Qed.

Lemma SFleb_ltb_trans (a b c : spec_float) :
  SFleb a b = true -> SFltb b c = true -> SFltb a c = true.
Proof. sf_cases. Qed.

Lemma SF_greater_irrefl (a : spec_float) : SF_greater_or_nan a a = false.
Proof. sf_cases. Qed.

Lemma SF_greater_trans (a b c : spec_float) :
  SF_greater_or_nan a b = true -> SF_greater_or_nan b c = true ->
  SF_greater_or_nan a c = true.
Proof. sf_cases. Qed.

Lemma SF_greater_cotrans (a b c : spec_float) :
  SF_greater_or_nan a b = true -> SF_greater_or_nan c b = false ->
  SF_greater_or_nan a c = true.
Proof. sf_cases. Qed.

Lemma is_nan_spec (x : float) : is_nan x = SF_is_nan (Prim2SF x).
Proof.
  unfold is_nan. rewrite FloatAxioms.eqb_spec.
  destruct (Prim2SF x) as [[]|[]| |[] m e]; try reflexivity;
    unfold SFeqb, SFcompare; rewrite BinInt.Z.compare_refl;
    change (Pos.compare_cont Eq m m) with (Pos.compare m m);
    rewrite Pos.compare_refl; reflexivity.
Qed.

Lemma greater_or_nan_spec (a b : float) :
  greater_or_nan a b = SF_greater_or_nan (Prim2SF a) (Prim2SF b).
Proof.
  unfold greater_or_nan, SF_greater_or_nan.
  now rewrite !is_nan_spec, FloatAxioms.ltb_spec.
Qed.

Lemma ltb_leb_trans (a b c : float) :
  (a <? b)%float = true -> (b <=? c)%float = true -> (a <? c)%float = true.
Proof.
  rewrite !FloatAxioms.ltb_spec, FloatAxioms.leb_spec. apply SFltb_leb_trans.
Qed.

Lemma leb_ltb_trans (a b c : float) :
  (a <=? b)%float = true -> (b <? c)%float = true -> (a <? c)%float = true.
Proof.
  rewrite !FloatAxioms.ltb_spec, FloatAxioms.leb_spec. apply SFleb_ltb_trans.
Qed.

Lemma greater_or_nan_irrefl (a : float) : greater_or_nan a a = false.
Proof. rewrite greater_or_nan_spec. apply SF_greater_irrefl. Qed.

Lemma greater_or_nan_trans (a b c : float) :
  greater_or_nan a b = true -> greater_or_nan b c = true ->
  greater_or_nan a c = true.
Proof. rewrite !greater_or_nan_spec. apply SF_greater_trans. Qed.

Lemma greater_or_nan_cotrans (a b c : float) :
  greater_or_nan a b = true -> greater_or_nan c b = false ->
  greater_or_nan a c = true.
Proof. rewrite !greater_or_nan_spec. apply SF_greater_cotrans. Qed.

(** ** The error monad *)

Lemma bind_inr {A B : Type} (m : result A) (f : A -> result B) (y : B) :
  m ≫= f = inr y -> exists x, m = inr x /\ f x = inr y.
Proof. destruct m as [e|x]; [discriminate | eauto]. Qed.

Lemma py_index_inr {A : Type} (l : list A) (i : nat) (x : A) :
  py_index l i = inr x <-> l !! i = Some x.
Proof.
  unfold py_index. destruct (l !! i); split; intros E;
    try discriminate; injection E as ->; reflexivity.
Qed.

(** ** The step matcher *)

Lemma argmax_from_lt (xs : list float) (bi i : nat) (b : float) :
  (bi < i)%nat -> (argmax_from bi b i xs < i + length xs)%nat.
Proof.
  revert bi i b. induction xs as [|x xs IH]; intros bi i b Hlt; simpl.
  - lia.
  - destruct (greater_or_nan x b).
    + specialize (IH i (S i) x). lia.
    + specialize (IH bi (S i) b). lia.
Qed.

Lemma first_maximum_snoc_keep (pre : list float) (bi : nat) (b x : float) :
  first_maximum pre bi b -> greater_or_nan x b = false ->
  first_maximum (pre ++ [x]) bi b.
Proof.
  intros (Hb & Hmax & Hfirst) Hx. split; [|split].
  - apply lookup_app_l_Some. exact Hb.
  - intros j y Hj. apply lookup_app_Some in Hj as [Hj|[_ Hj]].
    + eauto.
    + apply list_lookup_singleton_Some in Hj as [_ <-]. exact Hx.
  - intros j y Hlt Hj. apply lookup_app_Some in Hj as [Hj|[Hge _]].
    + eauto.
    + apply lookup_lt_Some in Hb. lia.
Qed.

Lemma first_maximum_snoc_replace (pre : list float) (bi : nat) (b x : float) :
  first_maximum pre bi b -> greater_or_nan x b = true ->
  first_maximum (pre ++ [x]) (length pre) x.
Proof.
  intros (Hb & Hmax & Hfirst) Hx. split; [|split].
  - rewrite lookup_app_r by lia. now rewrite Nat.sub_diag.
  - intros j y Hj. apply lookup_app_Some in Hj as [Hj|[_ Hj]].
    + destruct (greater_or_nan y x) eqn:Hyx; [|reflexivity].
      rewrite <- (Hmax j y Hj). symmetry.
      now apply greater_or_nan_trans with x.
    + apply list_lookup_singleton_Some in Hj as [_ <-].
      apply greater_or_nan_irrefl.
  - intros j y Hlt Hj. apply lookup_app_Some in Hj as [Hj|[Hge _]]; [|lia].
    apply greater_or_nan_cotrans with b; eauto.
Qed.

Lemma argmax_from_first_maximum (xs pre : list float) (bi : nat) (b : float) :
  first_maximum pre bi b ->
  exists v,
    first_maximum (pre ++ xs) (argmax_from bi b (length pre) xs) v.
Proof.
  revert pre bi b. induction xs as [|x xs IH]; intros pre bi b Hinv; simpl.
  - exists b. now rewrite app_nil_r.
  - replace (pre ++ x :: xs) with ((pre ++ [x]) ++ xs)
      by now rewrite <- app_assoc.
    replace (S (length pre)) with (length (pre ++ [x]))
      by (rewrite length_app; simpl; lia).
    destruct (greater_or_nan x b) eqn:Hx.
    + apply IH. now apply first_maximum_snoc_replace with bi b.
    + apply IH. now apply first_maximum_snoc_keep.
Qed.

Lemma argmax_first_maximum (xs : list float) (k : nat) :
  argmax xs = inr k -> exists v, first_maximum xs k v.
Proof.
  destruct xs as [|x xs]; [discriminate|]. intros [= <-].
  apply (argmax_from_first_maximum xs [x] 0 x).
  split; [reflexivity|split].
  - intros [|j] y Hj; simpl in Hj; [|now rewrite lookup_nil in Hj].
    injection Hj as <-. apply greater_or_nan_irrefl.
  - intros j y Hlt. lia.
Qed.

Lemma cos_sim_batch_inr `{Externals} (query : Tensor)
    (candidates : Batch) (sims : list float) :
  cos_sim_batch query candidates = inr sims ->
  sims = cos_sim_row query candidates.
Proof.
  unfold cos_sim_batch. destruct (Nat.eqb (rows candidates) 0);
    [discriminate|]. intros [= <-]. reflexivity.
Qed.

Lemma length_batch_similarities `{Externals} (self : SOPComparator)
    (action : string) (sop_steps : list Step.t) :
  length (batch_similarities self action sop_steps) = length sop_steps.
Proof.
  unfold batch_similarities.
  now rewrite length_cos_sim_row, rows_encode_list, length_fmap.
Qed.

Lemma find_best_match_empty `{Externals} (self : SOPComparator)
    (action : string) :
  find_best_match self action [] = inl RuntimeError.
Proof.
  unfold find_best_match, cos_sim_batch.
  rewrite rows_encode_list. reflexivity.
Qed.

(** What a successful [find_best_match] returns: the step at the index, and
    the first maximum of the row of scores of the batch. *)
Lemma find_best_match_inr `{Externals} (self : SOPComparator)
    (action : string) (sop_steps : list Step.t)
    (idx : nat) (score : float) (step : Step.t) :
  find_best_match self action sop_steps = inr (idx, score, step) ->
  sop_steps !! idx = Some step
  /\ first_maximum (batch_similarities self action sop_steps) idx score.
Proof.
  unfold find_best_match. intros E.
  apply bind_inr in E as (sims & Esims & E).
  apply bind_inr in E as (k & Ek & E).
  apply bind_inr in E as (sc & Esc & E).
  apply bind_inr in E as (st & Est & E).
  injection E as -> -> ->.
  apply py_index_inr in Est.
  split; [exact Est|].
  apply cos_sim_batch_inr in Esims as ->.
  apply argmax_first_maximum in Ek as (v & Hv).
  apply py_index_inr in Esc.
  destruct Hv as (Hk & Hrest).
  change (cos_sim_row (encode (model self) action)
            (encode_list (model self) (Step.action <$> sop_steps)))
    with (batch_similarities self action sop_steps) in *.
  rewrite Hk in Esc. injection Esc as ->.
  split; assumption.
Qed.

Lemma argmax_inr_lt (xs : list float) :
  xs <> [] -> exists k, argmax xs = inr k /\ (k < length xs)%nat.
Proof.
  destruct xs as [|x xs]; [congruence|]. intros _.
  exists (argmax_from 0 x 1 xs). split; [reflexivity|].
  pose proof (argmax_from_lt xs 0 1 x ltac:(lia)). simpl. lia.
Qed.

Lemma find_best_match_nonempty `{Externals} (self : SOPComparator)
    (action : string) (sop_steps : list Step.t) :
  sop_steps <> [] ->
  exists idx score step,
    find_best_match self action sop_steps = inr (idx, score, step).
Proof.
  intros Hne.
  pose proof (length_batch_similarities self action sop_steps) as Hlen.
  assert (length sop_steps <> 0%nat) as Hpos
    by (destruct sop_steps; [congruence|discriminate]).
  unfold find_best_match, cos_sim_batch.
  rewrite rows_encode_list, length_fmap.
  destruct (Nat.eqb (length sop_steps) 0) eqn:Hz;
    [apply Nat.eqb_eq in Hz; congruence|].
  change (cos_sim_row (encode (model self) action)
            (encode_list (model self) (Step.action <$> sop_steps)))
    with (batch_similarities self action sop_steps).
  cbn [mbind result_bind mret result_ret].
  destruct (argmax_inr_lt (batch_similarities self action sop_steps))
    as (k & -> & Hk).
  { intros Hnil. rewrite Hnil in Hlen. simpl in Hlen. lia. }
  cbn [mbind result_bind].
  destruct (lookup_lt_is_Some_2 (batch_similarities self action sop_steps) k)
    as [sc Hsc]; [exact Hk|].
  destruct (lookup_lt_is_Some_2 sop_steps k) as [st Hst]; [lia|].
  exists k, sc, st. unfold py_index. rewrite Hsc, Hst. reflexivity.
Qed.

(** ** The severity classifier *)

Lemma reported_severity_gated (similarity threshold : float)
    (tool_ok safety_ok : bool) :
  reported_severity similarity threshold tool_ok safety_ok
  = if deviation_test similarity threshold tool_ok safety_ok
    then rule_list_severity similarity threshold tool_ok safety_ok
    else Severity.none.
Proof.
  unfold reported_severity, deviation_test, severity_chain, rule_list_severity.
  destruct (similarity <? threshold)%float, (similarity <? 0.5)%float,
    tool_ok, safety_ok; reflexivity.
Qed.

Lemma reported_severity_rule_list (similarity threshold : float)
    (tool_ok safety_ok : bool) :
  (0.5 <=? threshold)%float = true ->
  reported_severity similarity threshold tool_ok safety_ok
  = rule_list_severity similarity threshold tool_ok safety_ok.
Proof.
  intros Hth. rewrite reported_severity_gated.
  unfold deviation_test, rule_list_severity.
  destruct (similarity <? 0.5)%float eqn:Hhalf.
  - rewrite (ltb_leb_trans _ _ _ Hhalf Hth). reflexivity.
  - destruct (similarity <? threshold)%float, tool_ok, safety_ok; reflexivity.
Qed.

Lemma severity_chain_low (similarity threshold : float)
    (tool_ok safety_ok : bool) :
  severity_chain similarity threshold tool_ok safety_ok = Severity.low ->
  deviation_test similarity threshold tool_ok safety_ok = false.
Proof.
  unfold deviation_test, severity_chain.
  destruct (similarity <? threshold)%float, (similarity <? 0.5)%float,
    tool_ok, safety_ok; simpl; congruence.
Qed.

Lemma deviation_test_false_low (similarity threshold : float)
    (tool_ok safety_ok : bool) :
  (0.5 <=? threshold)%float = true ->
  deviation_test similarity threshold tool_ok safety_ok = false ->
  severity_chain similarity threshold tool_ok safety_ok = Severity.low.
Proof.
  intros Hth. unfold deviation_test, severity_chain.
  destruct (similarity <? 0.5)%float eqn:Hhalf.
  - rewrite (ltb_leb_trans _ _ _ Hhalf Hth). discriminate.
  - destruct (similarity <? threshold)%float, tool_ok, safety_ok;
      simpl; congruence.
Qed.

Lemma reported_severity_not_low (similarity threshold : float)
    (tool_ok safety_ok : bool) :
  reported_severity similarity threshold tool_ok safety_ok <> Severity.low.
Proof.
  rewrite reported_severity_gated. unfold rule_list_severity.
  destruct (deviation_test _ _ _ _), (similarity <? 0.5)%float,
    (similarity <? threshold)%float, safety_ok, tool_ok; simpl; congruence.
Qed.

(** ** The loop of [analyze_sequence] *)

Lemma analyze_action_inr `{Externals} (self : SOPComparator) (sop : Sop.t)
    (i : nat) (a : Action.t) (r : Result.t) :
  analyze_action self sop i a = inr r ->
  exists similarity,
    evaluated_with self sop a r similarity
    /\ Result.is_deviation r
       = deviation_test similarity (threshold self)
           (ToolCheck.is_compliant (Result.tool_compliance r))
           (SafetyCheck.is_compliant (Result.safety_compliance r))
    /\ Result.severity r
       = reported_severity similarity (threshold self)
           (ToolCheck.is_compliant (Result.tool_compliance r))
           (SafetyCheck.is_compliant (Result.safety_compliance r))
    /\ Result.similarity_score r = py_round similarity 3.
Proof.
  unfold analyze_action. intros E.
  apply bind_inr in E as ([[idx similarity] step] & Ematch & E).
  injection E as <-. exists similarity. cbn.
  repeat split. exists idx, step. repeat split. exact Ematch.
Qed.

Lemma analyze_from_lookup `{Externals} (self : SOPComparator) (sop : Sop.t)
    (actions : list Action.t) (i : nat) (results : list Result.t) :
  analyze_from self sop i actions = inr results ->
  length results = length actions
  /\ forall k a r,
       actions !! k = Some a -> results !! k = Some r ->
       analyze_action self sop (i + k) a = inr r.
Proof.
  revert i results. induction actions as [|a0 rest IH]; intros i results E.
  - injection E as <-. split; [reflexivity|]. intros k a r Ha.
    now rewrite lookup_nil in Ha.
  - cbn [analyze_from] in E.
    apply bind_inr in E as (r0 & E0 & E).
    apply bind_inr in E as (rs & Ers & E).
    injection E as <-. destruct (IH _ _ Ers) as [Hlen Hrest].
    split; [simpl; now rewrite Hlen|].
    intros [|k] a r Ha Hr; simpl in Ha, Hr.
    + injection Ha as <-. injection Hr as <-. now rewrite Nat.add_0_r.
    + rewrite <- Nat.add_succ_comm. now apply Hrest.
Qed.

(** Every result of [analyze_sequence] is the verdict on the action at the
    same position. *)
Lemma analyze_sequence_verdict `{Externals} (self : SOPComparator)
    (actions : list Action.t) (sop : Sop.t) (results : list Result.t)
    (k : nat) (a : Action.t) (r : Result.t) :
  analyze_sequence self actions sop = inr results ->
  actions !! k = Some a -> results !! k = Some r ->
  exists similarity,
    evaluated_with self sop a r similarity
    /\ Result.is_deviation r
       = deviation_test similarity (threshold self)
           (ToolCheck.is_compliant (Result.tool_compliance r))
           (SafetyCheck.is_compliant (Result.safety_compliance r))
    /\ Result.severity r
       = reported_severity similarity (threshold self)
           (ToolCheck.is_compliant (Result.tool_compliance r))
           (SafetyCheck.is_compliant (Result.safety_compliance r))
    /\ Result.similarity_score r = py_round similarity 3.
Proof.
  intros E Ha Hr. apply analyze_from_lookup in E as [_ E].
  apply (analyze_action_inr self sop (0 + k) a r). now apply E.
Qed.

(** With at least one step in the SOP the whole sequence is analysed: one
    result per action. *)
Lemma analyze_sequence_returns `{Externals} (self : SOPComparator)
    (actions : list Action.t) (sop : Sop.t) :
  Sop.steps sop <> [] ->
  exists results,
    analyze_sequence self actions sop = inr results
    /\ length results = length actions.
Proof.
  intros Hne. unfold analyze_sequence. generalize 0%nat.
  induction actions as [|a rest IH]; intros i.
  - exists []. split; reflexivity.
  - destruct (find_best_match_nonempty self (Action.worker_action a)
                (Sop.steps sop) Hne) as (idx & score & step & Ematch).
    destruct (IH (S i)) as (rs & Ers & Hlen).
    cbn [analyze_from]. unfold analyze_action. rewrite Ematch. cbn.
    rewrite Ers. cbn. eexists. split; [reflexivity|]. simpl. now rewrite Hlen.
Qed.

Lemma analyze_sequence_results_exist `{Externals} (self : SOPComparator)
    (actions : list Action.t) (sop : Sop.t) (results : list Result.t)
    (k : nat) (a : Action.t) :
  analyze_sequence self actions sop = inr results ->
  actions !! k = Some a -> exists r, results !! k = Some r.
Proof.
  intros E Ha. apply analyze_from_lookup in E as [Hlen _].
  apply lookup_lt_is_Some. rewrite Hlen. now apply lookup_lt_Some in Ha.
Qed.

(** ** Properties of the severity classifier *)

(** C1 (amended). For every action processed by [analyze_sequence] the
    reported severity is the one of the ordered rule list (similarity below
    0.5: high; else below the threshold: medium; else safety equipment
    missing: high; else tools missing: medium; else none) whenever the
    result is flagged as a deviation, and none otherwise; the two agree on
    every observation as soon as the threshold is at least 0.5. *)
Theorem severity_by_rule_list `{Externals} (self : SOPComparator)
    (actions : list Action.t) (sop : Sop.t) (results : list Result.t)
    (k : nat) (a : Action.t) :
  analyze_sequence self actions sop = inr results ->
  actions !! k = Some a ->
  exists r similarity,
    results !! k = Some r
    /\ evaluated_with self sop a r similarity
    /\ Result.severity r
       = (if Result.is_deviation r
          then rule_list_severity similarity (threshold self)
                 (ToolCheck.is_compliant (Result.tool_compliance r))
                 (SafetyCheck.is_compliant (Result.safety_compliance r))
          else Severity.none)
    /\ ((0.5 <=? threshold self)%float = true ->
        Result.severity r
        = rule_list_severity similarity (threshold self)
            (ToolCheck.is_compliant (Result.tool_compliance r))
            (SafetyCheck.is_compliant (Result.safety_compliance r))).
Proof.
  intros E Ha.
  destruct (analyze_sequence_results_exist _ _ _ _ _ _ E Ha) as [r Hr].
  destruct (analyze_sequence_verdict _ _ _ _ _ _ _ E Ha Hr)
    as (similarity & Hev & Hdev & Hsev & _).
  exists r, similarity. split; [exact Hr|]. split; [exact Hev|].
  rewrite Hsev, Hdev. split.
  - apply reported_severity_gated.
  - apply reported_severity_rule_list.
Qed.

Lemma severity_by_rule_list_witness :
  exists r similarity,
    Stub.run 0.7 Stub.actions !! 2%nat = Some r
    /\ @evaluated_with Stub.externals (Stub.comparator 0.7) Stub.sop
         Stub.bare_06 r similarity
    /\ Result.severity r
       = (if Result.is_deviation r
          then rule_list_severity similarity 0.7
                 (ToolCheck.is_compliant (Result.tool_compliance r))
                 (SafetyCheck.is_compliant (Result.safety_compliance r))
          else Severity.none)
    /\ ((0.5 <=? 0.7)%float = true ->
        Result.severity r
        = rule_list_severity similarity 0.7
            (ToolCheck.is_compliant (Result.tool_compliance r))
            (SafetyCheck.is_compliant (Result.safety_compliance r))).
Proof.
  apply (@severity_by_rule_list Stub.externals (Stub.comparator 0.7)
           Stub.actions Stub.sop (Stub.run 0.7 Stub.actions) 2 Stub.bare_06).
  - vm_compute. reflexivity.
  - reflexivity.
Defined.

(** C1, as stated, fails: with threshold 0.3 an action whose best match
    scores 0.4 and whose tools and equipment are complete falls under rule 1
    (similarity below 0.5, severity high), but it is no deviation and its
    reported severity is none. *)
Lemma severity_rule_one_not_reported :
  exists r,
    @analyze_sequence Stub.externals (Stub.comparator 0.3)
      [Stub.near_miss] Stub.sop = inr [r]
    /\ @evaluated_with Stub.externals (Stub.comparator 0.3) Stub.sop
         Stub.near_miss r 0.4
    /\ ToolCheck.is_compliant (Result.tool_compliance r) = true
    /\ SafetyCheck.is_compliant (Result.safety_compliance r) = true
    /\ rule_list_severity 0.4 0.3 true true = Severity.high
    /\ Result.severity r = Severity.none.
Proof.
  eexists. split; [vm_compute; reflexivity|].
  split; [exists 0%nat, Stub.measure; repeat split; vm_compute; reflexivity|].
  repeat split; vm_compute; reflexivity.
Qed.

(** C2. For every action processed by [analyze_sequence], the result is
    flagged as a deviation exactly when the similarity of the best match is
    below the threshold, or the tool check is not compliant, or the
    safety-equipment check is not compliant. *)
Theorem is_deviation_iff `{Externals} (self : SOPComparator)
    (actions : list Action.t) (sop : Sop.t) (results : list Result.t)
    (k : nat) (a : Action.t) :
  analyze_sequence self actions sop = inr results ->
  actions !! k = Some a ->
  exists r similarity,
    results !! k = Some r
    /\ evaluated_with self sop a r similarity
    /\ (Result.is_deviation r = true <->
        (similarity <? threshold self)%float = true
        \/ ToolCheck.is_compliant (Result.tool_compliance r) = false
        \/ SafetyCheck.is_compliant (Result.safety_compliance r) = false).
Proof.
  intros E Ha.
  destruct (analyze_sequence_results_exist _ _ _ _ _ _ E Ha) as [r Hr].
  destruct (analyze_sequence_verdict _ _ _ _ _ _ _ E Ha Hr)
    as (similarity & Hev & Hdev & _).
  exists r, similarity. split; [exact Hr|]. split; [exact Hev|].
  rewrite Hdev. unfold deviation_test.
  rewrite !orb_true_iff, !negb_true_iff. tauto.
Qed.

Lemma is_deviation_iff_witness :
  exists r similarity,
    Stub.run 0.7 Stub.actions !! 3%nat = Some r
    /\ @evaluated_with Stub.externals (Stub.comparator 0.7) Stub.sop
         Stub.bare_08 r similarity
    /\ (Result.is_deviation r = true <->
        (similarity <? 0.7)%float = true
        \/ ToolCheck.is_compliant (Result.tool_compliance r) = false
        \/ SafetyCheck.is_compliant (Result.safety_compliance r) = false).
Proof.
  apply (@is_deviation_iff Stub.externals (Stub.comparator 0.7)
           Stub.actions Stub.sop (Stub.run 0.7 Stub.actions) 3 Stub.bare_08).
  - vm_compute. reflexivity.
  - reflexivity.
Defined.

(** C3 (amended). For fixed tool and safety outcomes, lowering the
    similarity never lowers the rank of the reported severity, provided the
    safety check is compliant, or the lower similarity lies outside the band
    from 0.5 up to the threshold, or the higher similarity is itself below
    the threshold; and these are the only cases: when the safety check is
    not compliant, the lower similarity lies in the band and the higher one
    is not below the threshold, the rank does get lower. *)
Theorem severity_antitone (threshold lower higher : float)
    (tool_ok safety_ok : bool) :
  (lower <=? higher)%float = true ->
  (safety_ok = true
   \/ (lower <? 0.5)%float = true
   \/ (lower <? threshold)%float = false
   \/ (higher <? threshold)%float = true)
  <->
  (Severity.rank (reported_severity higher threshold tool_ok safety_ok)
   <= Severity.rank (reported_severity lower threshold tool_ok safety_ok))%nat.
Proof.
  intros Hle. unfold reported_severity, deviation_test, severity_chain.
  destruct (higher <? 0.5)%float eqn:Hh5.
  { rewrite (leb_ltb_trans _ _ _ Hle Hh5).
    destruct (higher <? threshold)%float eqn:Hht.
    - rewrite (leb_ltb_trans _ _ _ Hle Hht). simpl. split; [lia|tauto].
    - destruct (lower <? threshold)%float, tool_ok, safety_ok; simpl;
        split; try lia; tauto. }
  destruct (higher <? threshold)%float eqn:Hht.
  { rewrite (leb_ltb_trans _ _ _ Hle Hht).
    destruct (lower <? 0.5)%float; simpl; split; try lia; tauto. }
  destruct (lower <? 0.5)%float eqn:Hl5,
    (lower <? threshold)%float eqn:Hlt, tool_ok, safety_ok; simpl;
    split; try lia; try tauto;
    intros [?|[?|[?|?]]]; discriminate.
Qed.

Lemma severity_antitone_witness :
  (false = true
   \/ (0.6 <? 0.5)%float = true
   \/ (0.6 <? 0.9)%float = false
   \/ (0.8 <? 0.9)%float = true)
  <->
  (Severity.rank (reported_severity 0.8 0.9 true false)
   <= Severity.rank (reported_severity 0.6 0.9 true false))%nat.
Proof.
  apply (severity_antitone 0.9 0.6 0.8 true false).
  vm_compute. reflexivity.
Defined.

(** C3, as stated, fails: with threshold 0.7, compliant tools and missing
    safety equipment, similarity 0.8 is reported high (rule 3) while the
    lower similarity 0.6 is reported medium (rule 2). *)
Lemma severity_not_antitone :
  (0.6 <=? 0.8)%float = true
  /\ reported_severity 0.8 0.7 true false = Severity.high
  /\ reported_severity 0.6 0.7 true false = Severity.medium
  /\ ~ (Severity.rank (reported_severity 0.8 0.7 true false)
        <= Severity.rank (reported_severity 0.6 0.7 true false))%nat.
Proof.
  repeat split; try (vm_compute; reflexivity).
  vm_compute. lia.
Qed.

(** C10 (amended). Every result of [analyze_sequence] reports a severity
    among none, medium and high, never low: the branch assigning low is
    taken only when the result is no deviation, and then none is reported.
    Conversely, a result that is no deviation took the low branch whenever
    the threshold is at least 0.5. *)
Theorem severity_never_low `{Externals} (self : SOPComparator)
    (actions : list Action.t) (sop : Sop.t) (results : list Result.t)
    (k : nat) (a : Action.t) :
  analyze_sequence self actions sop = inr results ->
  actions !! k = Some a ->
  exists r similarity,
    results !! k = Some r
    /\ evaluated_with self sop a r similarity
    /\ (Result.severity r = Severity.none
        \/ Result.severity r = Severity.medium
        \/ Result.severity r = Severity.high)
    /\ (severity_chain similarity (threshold self)
          (ToolCheck.is_compliant (Result.tool_compliance r))
          (SafetyCheck.is_compliant (Result.safety_compliance r))
        = Severity.low ->
        Result.is_deviation r = false
        /\ Result.severity r = Severity.none)
    /\ ((0.5 <=? threshold self)%float = true ->
        Result.is_deviation r = false ->
        severity_chain similarity (threshold self)
          (ToolCheck.is_compliant (Result.tool_compliance r))
          (SafetyCheck.is_compliant (Result.safety_compliance r))
        = Severity.low).
Proof.
  intros E Ha.
  destruct (analyze_sequence_results_exist _ _ _ _ _ _ E Ha) as [r Hr].
  destruct (analyze_sequence_verdict _ _ _ _ _ _ _ E Ha Hr)
    as (similarity & Hev & Hdev & Hsev & _).
  exists r, similarity. split; [exact Hr|]. split; [exact Hev|].
  split; [|split].
  - pose proof (reported_severity_not_low similarity (threshold self)
        (ToolCheck.is_compliant (Result.tool_compliance r))
        (SafetyCheck.is_compliant (Result.safety_compliance r))) as Hlow.
    rewrite <- Hsev in Hlow.
    destruct (Result.severity r); tauto.
  - intros Hchain. apply severity_chain_low in Hchain as Hno.
    rewrite Hsev, Hdev. unfold reported_severity. now rewrite Hno.
  - intros Hth Hno. rewrite Hdev in Hno.
    now apply deviation_test_false_low.
Qed.

Lemma severity_never_low_witness :
  exists r similarity,
    Stub.run 0.7 Stub.actions !! 0%nat = Some r
    /\ @evaluated_with Stub.externals (Stub.comparator 0.7) Stub.sop
         Stub.exact r similarity
    /\ (Result.severity r = Severity.none
        \/ Result.severity r = Severity.medium
        \/ Result.severity r = Severity.high)
    /\ (severity_chain similarity 0.7
          (ToolCheck.is_compliant (Result.tool_compliance r))
          (SafetyCheck.is_compliant (Result.safety_compliance r))
        = Severity.low ->
        Result.is_deviation r = false
        /\ Result.severity r = Severity.none)
    /\ ((0.5 <=? 0.7)%float = true ->
        Result.is_deviation r = false ->
        severity_chain similarity 0.7
          (ToolCheck.is_compliant (Result.tool_compliance r))
          (SafetyCheck.is_compliant (Result.safety_compliance r))
        = Severity.low).
Proof.
  apply (@severity_never_low Stub.externals (Stub.comparator 0.7)
           Stub.actions Stub.sop (Stub.run 0.7 Stub.actions) 0 Stub.exact).
  - vm_compute. reflexivity.
  - reflexivity.
Defined.

(** C10, as stated, fails in its last part: with threshold 0.3 the action
    scoring 0.4 with complete tools and equipment is no deviation, yet the
    branch it took assigns high, not low. *)
Lemma no_deviation_without_low_branch :
  exists r,
    @analyze_sequence Stub.externals (Stub.comparator 0.3)
      [Stub.near_miss] Stub.sop = inr [r]
    /\ @evaluated_with Stub.externals (Stub.comparator 0.3) Stub.sop
         Stub.near_miss r 0.4
    /\ Result.is_deviation r = false
    /\ severity_chain 0.4 0.3
         (ToolCheck.is_compliant (Result.tool_compliance r))
         (SafetyCheck.is_compliant (Result.safety_compliance r))
       = Severity.high.
Proof.
  eexists. split; [vm_compute; reflexivity|].
  split; [exists 0%nat, Stub.measure; repeat split; vm_compute; reflexivity|].
  split; vm_compute; reflexivity.
Qed.

(** ** Properties of the step matcher *)

(** C4 (amended). [find_best_match] checks no precondition of its own: on an
    empty step list the call fails inside the similarity library with a
    [RuntimeError]; on every non-empty step list it returns an index within
    the list, together with the step at that index. *)
Theorem find_best_match_index `{Externals} (self : SOPComparator)
    (action : string) (sop_steps : list Step.t) :
  (sop_steps = [] ->
   find_best_match self action sop_steps = inl RuntimeError)
  /\ (sop_steps <> [] ->
      exists idx score step,
        find_best_match self action sop_steps = inr (idx, score, step)
        /\ (idx < length sop_steps)%nat
        /\ sop_steps !! idx = Some step).
Proof.
  split.
  - intros ->. apply find_best_match_empty.
  - intros Hne.
    destruct (find_best_match_nonempty self action sop_steps Hne)
      as (idx & score & step & E).
    exists idx, score, step. split; [exact E|].
    apply find_best_match_inr in E as (Hstep & _).
    split; [now apply lookup_lt_Some in Hstep|exact Hstep].
Qed.

Lemma find_best_match_index_witness :
  exists idx score step,
    @find_best_match Stub.externals (Stub.comparator 0.7) "abcxx"
      [Stub.cut; Stub.measure] = inr (idx, score, step)
    /\ (idx < length [Stub.cut; Stub.measure])%nat
    /\ [Stub.cut; Stub.measure] !! idx = Some step.
Proof.
  apply (@find_best_match_index Stub.externals (Stub.comparator 0.7)
           "abcxx" [Stub.cut; Stub.measure]).
  discriminate.
Defined.

(** C4, as stated, fails: on an empty step list the exception raised is the
    library's [RuntimeError]; no [InvalidInput] error is raised. *)
Lemma find_best_match_empty_not_InvalidInput :
  @find_best_match Stub.externals (Stub.comparator 0.7) "abcde" []
    = inl RuntimeError
  /\ ~ (exists e,
          @find_best_match Stub.externals (Stub.comparator 0.7) "abcde" []
            = inl e
          /\ exc_class e = "InvalidInput").
Proof.
  split; [reflexivity|]. intros (e & E & Hcls).
  injection E as <-. discriminate Hcls.
Qed.

Lemma SFltb_nan_r (a b : spec_float) :
  SF_is_nan b = true -> SFltb a b = false.
Proof. sf_cases. Qed.

Lemma SFltb_nan_l (a b : spec_float) :
  SF_is_nan a = true -> SFltb a b = false.
Proof. sf_cases. Qed.

Lemma SFeqb_ltb (a b : spec_float) :
  SFeqb a b = true -> SFltb a b = false.
Proof. sf_cases. Qed.

Lemma SFeqb_not_nan (a b : spec_float) :
  SFeqb a b = true -> SF_is_nan a = false /\ SF_is_nan b = false.
Proof. sf_cases; split; reflexivity. Qed.

Lemma ltb_nan_r (a b : float) : is_nan b = true -> (a <? b)%float = false.
Proof. rewrite is_nan_spec, FloatAxioms.ltb_spec. apply SFltb_nan_r. Qed.

Lemma ltb_nan_l (a b : float) : is_nan a = true -> (a <? b)%float = false.
Proof. rewrite is_nan_spec, FloatAxioms.ltb_spec. apply SFltb_nan_l. Qed.

Lemma eqb_ltb (a b : float) :
  (a =? b)%float = true -> (a <? b)%float = false.
Proof.
  rewrite FloatAxioms.eqb_spec, FloatAxioms.ltb_spec. apply SFeqb_ltb.
Qed.

Lemma eqb_not_nan (a b : float) :
  (a =? b)%float = true -> is_nan a = false /\ is_nan b = false.
Proof.
  rewrite FloatAxioms.eqb_spec, !is_nan_spec. apply SFeqb_not_nan.
Qed.

(** C5 (amended). The step returned by [find_best_match] has the maximum of
    the scores computed for the batch of steps (no score is greater, a NaN
    score counting as the greatest), and among the steps whose score ties
    with it, it is the one with the smallest index. *)
Theorem find_best_match_first_of_ties `{Externals} (self : SOPComparator)
    (action : string) (sop_steps : list Step.t)
    (idx : nat) (score : float) (step : Step.t)
    (j : nat) (score_j : float) :
  find_best_match self action sop_steps = inr (idx, score, step) ->
  batch_similarities self action sop_steps !! j = Some score_j ->
  batch_similarities self action sop_steps !! idx = Some score
  /\ sop_steps !! idx = Some step
  /\ (score <? score_j)%float = false
  /\ (is_nan score_j = true -> is_nan score = true)
  /\ ((score_j =? score)%float = true -> (idx <= j)%nat)
  /\ (is_nan score_j = true -> (idx <= j)%nat).
Proof.
  intros E Hj.
  apply find_best_match_inr in E as (Hstep & Hscore & Hmax & Hfirst).
  pose proof (Hmax j score_j Hj) as Hle. unfold greater_or_nan in Hle.
  split; [exact Hscore|]. split; [exact Hstep|]. split; [|split; [|split]].
  - destruct (is_nan score_j) eqn:Hnan; [|exact Hle].
    now apply ltb_nan_r.
  - intros Hnan. rewrite Hnan in Hle. now apply negb_false_iff in Hle.
  - intros Heq. destruct (Nat.le_gt_cases idx j) as [?|Hlt]; [assumption|].
    pose proof (Hfirst j score_j Hlt Hj) as Hgt. unfold greater_or_nan in Hgt.
    destruct (eqb_not_nan _ _ Heq) as [_ Hn]. rewrite Hn in Hgt.
    rewrite (eqb_ltb _ _ Heq) in Hgt. discriminate.
  - intros Hnan. destruct (Nat.le_gt_cases idx j) as [?|Hlt]; [assumption|].
    pose proof (Hfirst j score_j Hlt Hj) as Hgt. unfold greater_or_nan in Hgt.
    destruct (is_nan score).
    + rewrite Hnan in Hgt. discriminate.
    + rewrite (ltb_nan_l _ _ Hnan) in Hgt. discriminate.
Qed.

Lemma find_best_match_first_of_ties_witness :
  @batch_similarities Stub.externals (Stub.comparator 0.7) "abcxx"
    [Stub.cut; Stub.measure; Stub.measure] !! 1%nat = Some 0.6%float
  /\ [Stub.cut; Stub.measure; Stub.measure] !! 1%nat = Some Stub.measure
  /\ (0.6 <? 0.6)%float = false
  /\ (is_nan 0.6 = true -> is_nan 0.6 = true)
  /\ ((0.6 =? 0.6)%float = true -> (1 <= 2)%nat)
  /\ (is_nan 0.6 = true -> (1 <= 2)%nat).
Proof.
  apply (@find_best_match_first_of_ties Stub.externals (Stub.comparator 0.7)
           "abcxx" [Stub.cut; Stub.measure; Stub.measure]
           1 0.6%float Stub.measure 2 0.6%float).
  - vm_compute. reflexivity.
  - vm_compute. reflexivity.
Defined.

(** C5, as stated, fails for steps with identical descriptions: the steps
    are scored in one batch, and with a library whose batch scores depend on
    the position in the batch two steps with the same description, and so
    with the same similarity to the action when compared one by one, do not
    tie in the batch: the later one is returned. *)
Lemma identical_descriptions_later_step :
  Step.action Stub.measure = Step.action Stub.measure_again
  /\ @compute_similarity Stub.positional Stub.positional_comparator "abcde"
       (Step.action Stub.measure)
     = @compute_similarity Stub.positional Stub.positional_comparator "abcde"
         (Step.action Stub.measure_again)
  /\ exists score,
       @find_best_match Stub.positional Stub.positional_comparator "abcde"
         [Stub.measure; Stub.measure_again]
       = inr (1%nat, score, Stub.measure_again)
       /\ [Stub.measure; Stub.measure_again] !! 0%nat = Some Stub.measure
       /\ Stub.measure_again <> Stub.measure.
Proof.
  split; [reflexivity|]. split; [reflexivity|].
  eexists. split; [vm_compute; reflexivity|].
  split; [reflexivity|discriminate].
Qed.

(** ** The compliance checks *)

Lemma filter_length_0 {A : Type} (f : A -> bool) (l : list A) :
  Nat.eqb (length (List.filter f l)) 0 = true <->
  forall x, x ∈ l -> f x = false.
Proof.
  induction l as [|y l IH]; simpl.
  - split; [|reflexivity]. intros _ x Hx. now apply elem_of_nil in Hx.
  - destruct (f y) eqn:Hy; simpl.
    + split; [discriminate|]. intros Hall.
      rewrite (Hall y) in Hy by apply list_elem_of_here. discriminate.
    + rewrite IH. split.
      * intros Hall x Hx. apply elem_of_cons in Hx as [->|Hx]; auto.
      * intros Hall x Hx. apply Hall. now apply list_elem_of_further.
Qed.

Lemma not_in_false (tool : string) (tools : list string) :
  not_in tool tools = false <-> tool ∈ tools.
Proof.
  unfold not_in. rewrite negb_false_iff. apply bool_decide_eq_true.
Qed.

Lemma check_tool_compliance_compliant `{Externals}
    (observed_tools required_tools : list string) :
  ToolCheck.is_compliant (check_tool_compliance observed_tools required_tools)
    = true <->
  forall tool, tool ∈ required_tools ->
    str_lower tool ∈ str_lower <$> observed_tools.
Proof.
  cbn [check_tool_compliance ToolCheck.is_compliant].
  rewrite filter_length_0. split.
  - intros Hall tool Htool. apply not_in_false, Hall.
    now apply list_elem_of_fmap_2.
  - intros Hall x Hx. apply list_elem_of_fmap in Hx as (tool & -> & Htool).
    now apply not_in_false, Hall.
Qed.

(** C6. [check_tool_compliance] reports compliance exactly when every
    required tool, lower-cased, is among the lower-cased observed tools; an
    empty requirement is always compliant with nothing missing, and tools
    observed beyond the required ones never make the check fail. *)
Theorem check_tool_compliance_spec `{Externals}
    (observed_tools required_tools extra : list string) :
  (ToolCheck.is_compliant
     (check_tool_compliance observed_tools required_tools) = true <->
   forall tool, tool ∈ required_tools ->
     str_lower tool ∈ str_lower <$> observed_tools)
  /\ ToolCheck.is_compliant (check_tool_compliance observed_tools []) = true
  /\ ToolCheck.missing_tools (check_tool_compliance observed_tools []) = []
  /\ ToolCheck.is_compliant
       (check_tool_compliance (required_tools ++ extra) required_tools) = true
  /\ (ToolCheck.is_compliant
        (check_tool_compliance observed_tools required_tools) = true ->
      ToolCheck.is_compliant
        (check_tool_compliance (observed_tools ++ extra) required_tools)
      = true).
Proof.
  split; [apply check_tool_compliance_compliant|].
  split; [reflexivity|]. split; [reflexivity|]. split.
  - apply check_tool_compliance_compliant. intros tool Htool.
    rewrite fmap_app, elem_of_app. left. now apply list_elem_of_fmap_2.
  - rewrite !check_tool_compliance_compliant. intros Hall tool Htool.
    rewrite fmap_app, elem_of_app. left. now apply Hall.
Qed.

Lemma check_tool_compliance_spec_witness :
  ToolCheck.is_compliant
    (@check_tool_compliance Stub.externals
       (["Drill"; "hammer"] ++ ["LEVEL"]) ["drill"]) = true.
Proof.
  apply (@check_tool_compliance_spec Stub.externals
           ["Drill"; "hammer"] ["drill"] ["LEVEL"]).
  vm_compute. reflexivity.
Defined.

(** The scenario of the specification: a drill observed, a drill and screws
    required. *)
Example check_tool_compliance_missing_screws :
  ToolCheck.is_compliant
    (@check_tool_compliance Stub.externals ["drill"] ["drill"; "screws"])
    = false
  /\ ToolCheck.missing_tools
       (@check_tool_compliance Stub.externals ["drill"] ["drill"; "screws"])
     = ["screws"].
Proof. split; vm_compute; reflexivity. Qed.

(** ** The sequence aggregator *)

Lemma filter_andb {A : Type} (f g : A -> bool) (l : list A) :
  List.filter g (List.filter f l) = List.filter (fun x => f x && g x) l.
Proof.
  induction l as [|x l IH]; simpl; [reflexivity|].
  destruct (f x); simpl; [destruct (g x)|]; now rewrite IH.
Qed.

Lemma filter_split_length {A : Type} (f g : A -> bool) (l : list A) :
  (forall x, x ∈ l -> xorb (f x) (g x) = true) ->
  length l = (length (List.filter f l) + length (List.filter g l))%nat.
Proof.
  induction l as [|x l IH]; intros Hall; simpl; [reflexivity|].
  pose proof (Hall x (list_elem_of_here _ _)) as Hx.
  rewrite IH by (intros y Hy; apply Hall; now apply list_elem_of_further).
  destruct (f x), (g x); simpl in *; try discriminate; lia.
Qed.

(** [generate_summary] never raises, and its counts are those of the list
    comprehensions of the source. *)
Lemma generate_summary_inr (results : list Result.t) :
  exists s,
    generate_summary results = inr s
    /\ Summary.total_frames_analyzed s = length results
    /\ Summary.total_deviations s
       = length (List.filter Result.is_deviation results)
    /\ Summary.high_severity_count s
       = length (List.filter
                   (fun r => Result.is_deviation r
                             && has_severity Severity.high r) results)
    /\ Summary.medium_severity_count s
       = length (List.filter
                   (fun r => Result.is_deviation r
                             && has_severity Severity.medium r) results)
    /\ (results <> [] ->
        Summary.compliance_rate s
        = rounded_compliance_rate (length results)
            (length (List.filter Result.is_deviation results))).
Proof.
  unfold generate_summary. rewrite !filter_andb.
  destruct results as [|r0 rest].
  - eexists. split; [reflexivity|]. cbn. repeat split. congruence.
  - set (results := r0 :: rest).
    assert ((0 <? length results)%nat = true) as -> by reflexivity.
    unfold float_truediv, int_truediv.
    assert ((Z.of_nat (length results) =? 0) = false) as ->
      by (apply Z.eqb_neq; simpl; lia).
    eexists. split; [reflexivity|]. cbn [Summary.total_frames_analyzed
      Summary.total_deviations Summary.high_severity_count
      Summary.medium_severity_count Summary.compliance_rate].
    repeat split.
Qed.

(** C7 (amended). [generate_summary] never raises: on the empty list the
    guarded divisions are skipped and the total, the compliance rate and the
    average similarity are 0; on a non-empty list the compliance rate is
    [(total - deviations) / total * 100] rounded to one decimal place. *)
Theorem generate_summary_guarded (results : list Result.t) :
  (exists s,
     generate_summary [] = inr s
     /\ Summary.total_frames_analyzed s = 0%nat
     /\ Summary.compliance_rate s = 0%float
     /\ Summary.average_similarity s = 0%float)
  /\ (exists s,
        generate_summary results = inr s
        /\ (results <> [] ->
            Summary.compliance_rate s
            = rounded_compliance_rate
                (Summary.total_frames_analyzed s)
                (Summary.total_deviations s))).
Proof.
  split.
  - eexists. split; [reflexivity|]. repeat split.
  - destruct (generate_summary_inr results)
      as (s & E & Htotal & Hdev & _ & _ & Hrate).
    exists s. split; [exact E|]. rewrite Htotal, Hdev. exact Hrate.
Qed.

Lemma generate_summary_guarded_witness :
  exists s,
    generate_summary
      [Stub.res false Severity.none 0.9; Stub.res true Severity.high 0.4;
       Stub.res false Severity.none 0.85] = inr s
    /\ Summary.total_frames_analyzed s = 3%nat
    /\ Summary.total_deviations s = 1%nat
    /\ Summary.compliance_rate s = rounded_compliance_rate 3 1
    /\ rounded_compliance_rate 3 1 = 66.7%float
    /\ Summary.average_similarity s = 0.717%float.
Proof.
  destruct (generate_summary_guarded
              [Stub.res false Severity.none 0.9;
               Stub.res true Severity.high 0.4;
               Stub.res false Severity.none 0.85])
    as (_ & s & E & Hrate).
  exists s. split; [exact E|].
  vm_compute in E. injection E as <-.
  repeat split; vm_compute; reflexivity.
Defined.

(** C7, as stated, fails in its formula: for three results with one
    deviation the compliance rate is 66.7, the quotient rounded to one
    decimal place, not [100 * (3 - 1) / 3]. *)
Lemma compliance_rate_is_rounded :
  exists s,
    generate_summary
      [Stub.res false Severity.none 0.9; Stub.res true Severity.high 0.4;
       Stub.res false Severity.none 0.85] = inr s
    /\ Summary.total_frames_analyzed s = 3%nat
    /\ Summary.total_deviations s = 1%nat
    /\ Summary.compliance_rate s = 66.7%float
    /\ (Summary.compliance_rate s =? spec_compliance_rate 3 1)%float = false.
Proof.
  eexists. split; [vm_compute; reflexivity|].
  repeat split; vm_compute; reflexivity.
Qed.

Lemma deviation_severity (similarity threshold : float)
    (tool_ok safety_ok : bool) :
  deviation_test similarity threshold tool_ok safety_ok = true ->
  reported_severity similarity threshold tool_ok safety_ok = Severity.high
  \/ reported_severity similarity threshold tool_ok safety_ok
     = Severity.medium.
Proof.
  unfold reported_severity. intros Hdev. rewrite Hdev. revert Hdev.
  unfold deviation_test, severity_chain.
  destruct (similarity <? 0.5)%float, (similarity <? threshold)%float,
    tool_ok, safety_ok; simpl; intros; try discriminate; tauto.
Qed.

(** In the output of [analyze_sequence] every deviation is rated high or
    medium. *)
Lemma analyze_sequence_deviation_severity `{Externals}
    (self : SOPComparator) (actions : list Action.t) (sop : Sop.t)
    (results : list Result.t) (r : Result.t) :
  analyze_sequence self actions sop = inr results ->
  r ∈ results ->
  Result.is_deviation r = true ->
  Result.severity r = Severity.high \/ Result.severity r = Severity.medium.
Proof.
  intros E Hr Hdev. apply list_elem_of_lookup in Hr as [k Hk].
  pose proof E as Hlen. apply analyze_from_lookup in Hlen as [Hlen _].
  destruct (lookup_lt_is_Some_2 actions k) as [a Ha].
  { rewrite <- Hlen. now apply lookup_lt_Some in Hk. }
  destruct (analyze_sequence_verdict _ _ _ _ _ _ _ E Ha Hk)
    as (similarity & _ & Hd & Hs & _).
  rewrite Hs. apply deviation_severity. now rewrite <- Hd.
Qed.

(** C9 (amended). In every summary that [generate_summary] produces, for
    any list of results, the high and medium counts count deviating results
    only, so a result rated none (or any result that is no deviation) is in
    neither; and when the results are those that [analyze_sequence]
    produced, the two counts add up to the number of deviations. *)
Theorem severity_counts_partition `{Externals} (self : SOPComparator)
    (actions : list Action.t) (sop : Sop.t) (results : list Result.t) :
  exists s,
    generate_summary results = inr s
    /\ Summary.high_severity_count s
       = length (List.filter
                   (fun r => Result.is_deviation r
                             && has_severity Severity.high r) results)
    /\ Summary.medium_severity_count s
       = length (List.filter
                   (fun r => Result.is_deviation r
                             && has_severity Severity.medium r) results)
    /\ (analyze_sequence self actions sop = inr results ->
        Summary.total_deviations s
        = (Summary.high_severity_count s
           + Summary.medium_severity_count s)%nat).
Proof.
  destruct (generate_summary_inr results)
    as (s & Es & _ & Hdev & Hhigh & Hmed & _).
  exists s. split; [exact Es|]. split; [exact Hhigh|]. split; [exact Hmed|].
  intros E.
  rewrite Hdev, Hhigh, Hmed, <- !filter_andb.
  apply filter_split_length. intros r Hr.
  apply list_elem_of_In, filter_In in Hr as [Hr Hd].
  apply list_elem_of_In in Hr.
  unfold has_severity.
  destruct (analyze_sequence_deviation_severity _ _ _ _ _ E Hr Hd)
    as [-> | ->]; reflexivity.
Qed.

Lemma severity_counts_partition_witness :
  exists s,
    generate_summary (Stub.run 0.7 Stub.actions) = inr s
    /\ Summary.high_severity_count s
       = length (List.filter
                   (fun r => Result.is_deviation r
                             && has_severity Severity.high r)
                   (Stub.run 0.7 Stub.actions))
    /\ Summary.medium_severity_count s
       = length (List.filter
                   (fun r => Result.is_deviation r
                             && has_severity Severity.medium r)
                   (Stub.run 0.7 Stub.actions))
    /\ Summary.total_deviations s
       = (Summary.high_severity_count s
          + Summary.medium_severity_count s)%nat.
Proof.
  destruct (@severity_counts_partition Stub.externals (Stub.comparator 0.7)
              Stub.actions Stub.sop (Stub.run 0.7 Stub.actions))
    as (s & Es & Hhigh & Hmed & Htotal).
  exists s. split; [exact Es|]. split; [exact Hhigh|]. split; [exact Hmed|].
  apply Htotal. vm_compute. reflexivity.
Defined.

(** C9, as stated, fails: [generate_summary] applied to one deviating
    result rated low counts one deviation and no high or medium one. *)
Lemma deviation_outside_both_counts :
  exists s,
    generate_summary [Stub.res true Severity.low 0.9] = inr s
    /\ Summary.total_deviations s = 1%nat
    /\ Summary.high_severity_count s = 0%nat
    /\ Summary.medium_severity_count s = 0%nat.
Proof.
  eexists. split; [vm_compute; reflexivity|].
  repeat split.
Qed.

(** ** Construction *)

(** C8 (amended). [__init__] checks no range: once the model is loaded, the
    threshold is whatever number [SIMILARITY_THRESHOLD] parses to, unchanged
    and whether or not it lies in (0,1), and 0.70 when the variable is unset;
    the only rejection is that of a string that is not a number. *)
Theorem init_threshold_unchecked `{Externals}
    (environ : gmap string string) (name : option string) (m : Model) :
  SentenceTransformer (resolve_model_name environ name) = inr m ->
  (forall s f,
     environ !! "SIMILARITY_THRESHOLD" = Some s -> float_of_str s = Some f ->
     init environ name
     = inr {| model_name := resolve_model_name environ name;
              model := m; threshold := f |})
  /\ (environ !! "SIMILARITY_THRESHOLD" = None ->
      init environ name
      = inr {| model_name := resolve_model_name environ name;
               model := m; threshold := 0.70 |})
  /\ (forall s,
        environ !! "SIMILARITY_THRESHOLD" = Some s ->
        float_of_str s = None ->
        init environ name = inl ValueError).
Proof.
  intros Hm. unfold init, read_threshold. rewrite Hm. cbn.
  split; [|split].
  - intros s f -> ->. reflexivity.
  - intros ->. reflexivity.
  - intros s -> ->. reflexivity.
Qed.

Lemma init_threshold_unchecked_witness :
  @init Stub.externals {[ "SIMILARITY_THRESHOLD" := "0.3" ]} (Some "stub")
  = inr (Stub.comparator 0.3).
Proof.
  apply (proj1 (@init_threshold_unchecked Stub.externals
                  {[ "SIMILARITY_THRESHOLD" := "0.3" ]} (Some "stub") tt
                  eq_refl) "0.3" 0.3%float);
    vm_compute; reflexivity.
Defined.

(** C8, as stated, fails: with [SIMILARITY_THRESHOLD=1.5] construction
    succeeds and the comparator carries the threshold 1.5, outside (0,1). *)
Lemma threshold_out_of_range_accepted :
  exists self,
    @init Stub.externals {[ "SIMILARITY_THRESHOLD" := "1.5" ]} None
      = inr self
    /\ threshold self = 1.5%float
    /\ (1 <=? threshold self)%float = true.
Proof.
  eexists. split; [reflexivity|].
  split; reflexivity.
Qed.

(** ** Further properties of the compliance checks *)

Lemma filter_nil_length {A : Type} (l : list A) :
  Nat.eqb (length l) 0 = true <-> l = [].
Proof. destruct l; simpl; split; congruence. Qed.

Lemma elem_of_List_filter {A : Type} (f : A -> bool) (l : list A) (x : A) :
  x ∈ List.filter f l <-> x ∈ l /\ f x = true.
Proof. rewrite !list_elem_of_In. apply filter_In. Qed.

Lemma not_in_true (tool : string) (tools : list string) :
  not_in tool tools = true <-> tool ∉ tools.
Proof.
  unfold not_in. rewrite negb_true_iff. apply bool_decide_eq_false.
Qed.

Lemma check_safety_equipment_compliant `{Externals}
    (observed_equipment required_equipment : list string) :
  SafetyCheck.is_compliant
    (check_safety_equipment observed_equipment required_equipment) = true <->
  forall eq, eq ∈ required_equipment ->
    str_lower eq ∈ (str_lower <$> observed_equipment).
Proof.
  cbn [check_safety_equipment SafetyCheck.is_compliant].
  rewrite filter_length_0. split.
  - intros Hall eq Heq. apply not_in_false, Hall.
    now apply list_elem_of_fmap_2.
  - intros Hall x Hx. apply list_elem_of_fmap in Hx as (eq & -> & Heq).
    now apply not_in_false, Hall.
Qed.

(** X1. [check_safety_equipment] reports compliance exactly when every
    required item, lower-cased, is among the lower-cased observed items; the
    items it lists as missing are exactly the lower-cased required items that
    were not observed, and none is missing exactly when it is compliant. *)
Theorem check_safety_equipment_spec `{Externals}
    (observed_equipment required_equipment : list string) (item : string) :
  (SafetyCheck.is_compliant
     (check_safety_equipment observed_equipment required_equipment) = true <->
   forall eq, eq ∈ required_equipment ->
     str_lower eq ∈ (str_lower <$> observed_equipment))
  /\ (item ∈ SafetyCheck.missing_equipment
               (check_safety_equipment observed_equipment required_equipment)
      <-> item ∈ (str_lower <$> required_equipment)
          /\ item ∉ (str_lower <$> observed_equipment))
  /\ (SafetyCheck.is_compliant
        (check_safety_equipment observed_equipment required_equipment) = true
      <-> SafetyCheck.missing_equipment
            (check_safety_equipment observed_equipment required_equipment)
          = []).
Proof.
  split; [apply check_safety_equipment_compliant|]. split.
  - cbn [check_safety_equipment SafetyCheck.missing_equipment].
    rewrite elem_of_List_filter, not_in_true. reflexivity.
  - apply filter_nil_length.
Qed.

(** X2. In the outcome of [check_tool_compliance] a tool is listed as
    missing exactly when it is required and not observed, and as wrong
    exactly when it is observed, not required and not the empty string (all
    names lower-cased); so no tool is listed both as missing and as wrong,
    and the check is compliant exactly when nothing is missing, whatever the
    wrong tools. *)
Theorem check_tool_compliance_lists `{Externals}
    (observed_tools required_tools : list string) (tool : string) :
  (tool ∈ ToolCheck.missing_tools
            (check_tool_compliance observed_tools required_tools)
   <-> tool ∈ (str_lower <$> required_tools)
       /\ tool ∉ (str_lower <$> observed_tools))
  /\ (tool ∈ ToolCheck.wrong_tools
               (check_tool_compliance observed_tools required_tools)
      <-> tool ∈ (str_lower <$> observed_tools)
          /\ (tool ∉ (str_lower <$> required_tools))
          /\ tool <> "")
  /\ ~ (tool ∈ ToolCheck.missing_tools
                 (check_tool_compliance observed_tools required_tools)
        /\ tool ∈ ToolCheck.wrong_tools
                    (check_tool_compliance observed_tools required_tools))
  /\ (ToolCheck.is_compliant
        (check_tool_compliance observed_tools required_tools) = true
      <-> ToolCheck.missing_tools
            (check_tool_compliance observed_tools required_tools) = []).
Proof.
  assert (tool ∈ ToolCheck.missing_tools
                   (check_tool_compliance observed_tools required_tools)
          <-> tool ∈ (str_lower <$> required_tools)
              /\ tool ∉ (str_lower <$> observed_tools)) as Hmissing.
  { cbn [check_tool_compliance ToolCheck.missing_tools].
    rewrite elem_of_List_filter, not_in_true. reflexivity. }
  assert (tool ∈ ToolCheck.wrong_tools
                   (check_tool_compliance observed_tools required_tools)
          <-> tool ∈ (str_lower <$> observed_tools)
              /\ (tool ∉ (str_lower <$> required_tools))
              /\ tool <> "") as Hwrong.
  { cbn [check_tool_compliance ToolCheck.wrong_tools].
    rewrite elem_of_List_filter, andb_true_iff, not_in_true,
      negb_true_iff, bool_decide_eq_false. reflexivity. }
  split; [exact Hmissing|]. split; [exact Hwrong|]. split.
  - rewrite Hmissing, Hwrong. tauto.
  - apply filter_nil_length.
Qed.

(** ** Further properties of [analyze_sequence] *)

Lemma analyze_action_fields `{Externals} (self : SOPComparator)
    (sop : Sop.t) (i : nat) (a : Action.t) (r : Result.t) :
  analyze_action self sop i a = inr r ->
  Result.frame_number r = i
  /\ Result.timestamp r = Action.timestamp a
  /\ Result.observed_action r = Action.worker_action a
  /\ Result.location r = Action.location_zone a
  /\ Result.potential_hazards r = Action.potential_hazards a
  /\ exists idx similarity step,
       find_best_match self (Action.worker_action a) (Sop.steps sop)
         = inr (idx, similarity, step)
       /\ Result.step_number r = (idx + 1)%nat
       /\ Result.matched_sop_step r = Step.action step
       /\ Result.tool_compliance r
          = check_tool_compliance (Action.tools_visible a)
                                  (Step.required_tools step).
Proof.
  unfold analyze_action. intros E.
  apply bind_inr in E as ([[idx similarity] step] & Ematch & E).
  injection E as <-. cbn. repeat split.
  exists idx, similarity, step. repeat split. exact Ematch.
Qed.

Lemma analyze_from_steps_empty `{Externals} (self : SOPComparator)
    (sop : Sop.t) (i : nat) (a : Action.t) (rest : list Action.t) :
  Sop.steps sop = [] ->
  analyze_from self sop i (a :: rest) = inl RuntimeError.
Proof.
  intros Hnil. cbn [analyze_from]. unfold analyze_action.
  rewrite Hnil, find_best_match_empty. reflexivity.
Qed.

(** X4. [analyze_sequence] returns its results exactly when there is no
    action or the SOP has at least one step: with no action it returns the
    empty list, with actions and no step it raises the library's
    [RuntimeError] and yields no result at all, and with at least one step it
    returns one result per action. *)
Theorem analyze_sequence_returns_iff `{Externals} (self : SOPComparator)
    (actions : list Action.t) (sop : Sop.t) :
  (actions = [] -> analyze_sequence self actions sop = inr [])
  /\ (actions <> [] -> Sop.steps sop = [] ->
      analyze_sequence self actions sop = inl RuntimeError)
  /\ (Sop.steps sop <> [] ->
      exists results,
        analyze_sequence self actions sop = inr results
        /\ length results = length actions)
  /\ ((exists results, analyze_sequence self actions sop = inr results)
      <-> actions = [] \/ Sop.steps sop <> []).
Proof.
  assert (actions <> [] -> Sop.steps sop = [] ->
          analyze_sequence self actions sop = inl RuntimeError) as Hraise.
  { intros Hne Hnil. destruct actions as [|a rest]; [congruence|].
    now apply analyze_from_steps_empty. }
  split; [intros ->; reflexivity|]. split; [exact Hraise|].
  split; [apply analyze_sequence_returns|]. split.
  - intros [results E].
    destruct actions as [|a rest]; [now left|]. right. intros Hnil.
    rewrite Hraise in E; [discriminate|discriminate|exact Hnil].
  - intros [->|Hne]; [now exists []|].
    destruct (analyze_sequence_returns self actions sop Hne) as (rs & E & _).
    now exists rs.
Qed.

(** X5. In the output of [analyze_sequence] the result at position [k] is
    the verdict on the action at position [k]: it carries [k] as frame number
    and the action's timestamp, description, location and hazards unchanged;
    and there are as many results as actions. *)
Theorem analyze_sequence_passthrough `{Externals} (self : SOPComparator)
    (actions : list Action.t) (sop : Sop.t) (results : list Result.t)
    (k : nat) (a : Action.t) :
  analyze_sequence self actions sop = inr results ->
  actions !! k = Some a ->
  length results = length actions
  /\ exists r,
       results !! k = Some r
       /\ Result.frame_number r = k
       /\ Result.timestamp r = Action.timestamp a
       /\ Result.observed_action r = Action.worker_action a
       /\ Result.location r = Action.location_zone a
       /\ Result.potential_hazards r = Action.potential_hazards a.
Proof.
  intros E Ha.
  destruct (analyze_sequence_results_exist _ _ _ _ _ _ E Ha) as [r Hr].
  apply analyze_from_lookup in E as [Hlen E].
  split; [exact Hlen|]. exists r. split; [exact Hr|].
  specialize (E k a r Ha Hr). simpl in E.
  apply analyze_action_fields in E as (? & ? & ? & ? & ? & _).
  repeat split; assumption.
Qed.

Lemma analyze_sequence_passthrough_witness :
  length (Stub.run 0.7 Stub.actions) = length Stub.actions
  /\ exists r,
       Stub.run 0.7 Stub.actions !! 2%nat = Some r
       /\ Result.frame_number r = 2%nat
       /\ Result.timestamp r = Action.timestamp Stub.bare_06
       /\ Result.observed_action r = Action.worker_action Stub.bare_06
       /\ Result.location r = Action.location_zone Stub.bare_06
       /\ Result.potential_hazards r = Action.potential_hazards Stub.bare_06.
Proof.
  apply (@analyze_sequence_passthrough Stub.externals (Stub.comparator 0.7)
           Stub.actions Stub.sop (Stub.run 0.7 Stub.actions) 2 Stub.bare_06).
  - vm_compute. reflexivity.
  - reflexivity.
Defined.

(** X6. Every result of [analyze_sequence] names a step of the SOP: its
    step number lies between 1 and the number of steps, the matched text is
    that step's description, the tools it was checked against are that step's
    required tools and the equipment it was checked against is the SOP's
    safety equipment (both lower-cased). *)
Theorem analyze_sequence_matched_step `{Externals} (self : SOPComparator)
    (actions : list Action.t) (sop : Sop.t) (results : list Result.t)
    (k : nat) (r : Result.t) :
  analyze_sequence self actions sop = inr results ->
  results !! k = Some r ->
  (1 <= Result.step_number r <= length (Sop.steps sop))%nat
  /\ exists step,
       Sop.steps sop !! (Result.step_number r - 1)%nat = Some step
       /\ Result.matched_sop_step r = Step.action step
       /\ ToolCheck.required (Result.tool_compliance r)
          = str_lower <$> Step.required_tools step
       /\ SafetyCheck.required (Result.safety_compliance r)
          = str_lower <$> Sop.safety_equipment sop.
Proof.
  intros E Hr. pose proof E as Hlen.
  apply analyze_from_lookup in Hlen as [Hlen Hat].
  destruct (lookup_lt_is_Some_2 actions k) as [a Ha].
  { rewrite <- Hlen. now apply lookup_lt_Some in Hr. }
  destruct (analyze_sequence_verdict _ _ _ _ _ _ _ E Ha Hr)
    as (sim & (idx0 & step0 & _ & _ & Hsafety) & _).
  specialize (Hat k a r Ha Hr). simpl in Hat.
  apply analyze_action_fields in Hat
    as (_ & _ & _ & _ & _ & idx & similarity & step & Ematch & Hnum & Htext
        & Htools).
  apply find_best_match_inr in Ematch as (Hstep & _).
  pose proof (lookup_lt_Some _ _ _ Hstep) as Hidx.
  split; [lia|]. exists step.
  rewrite Hnum, Htext, Htools, Hsafety.
  replace (idx + 1 - 1)%nat with idx by lia.
  repeat split. exact Hstep.
Qed.

Lemma analyze_sequence_matched_step_witness :
  exists r,
    Stub.run 0.7 Stub.actions !! 1%nat = Some r
    /\ (1 <= Result.step_number r <= length (Sop.steps Stub.sop))%nat
    /\ exists step,
         Sop.steps Stub.sop !! (Result.step_number r - 1)%nat = Some step
         /\ Result.matched_sop_step r = Step.action step
         /\ ToolCheck.required (Result.tool_compliance r)
            = Stub.lower <$> Step.required_tools step
         /\ SafetyCheck.required (Result.safety_compliance r)
            = Stub.lower <$> Sop.safety_equipment Stub.sop.
Proof.
  eexists. split; [vm_compute; reflexivity|].
  eapply (@analyze_sequence_matched_step Stub.externals (Stub.comparator 0.7)
            Stub.actions Stub.sop (Stub.run 0.7 Stub.actions) 1).
  - vm_compute. reflexivity.
  - vm_compute. reflexivity.
Defined.

Lemma reported_severity_none_iff (similarity threshold : float)
    (tool_ok safety_ok : bool) :
  reported_severity similarity threshold tool_ok safety_ok = Severity.none
  <-> deviation_test similarity threshold tool_ok safety_ok = false.
Proof.
  split.
  - intros Hnone.
    destruct (deviation_test similarity threshold tool_ok safety_ok) eqn:Hd;
      [|reflexivity].
    destruct (deviation_severity _ _ _ _ Hd); congruence.
  - intros Hd. unfold reported_severity. now rewrite Hd.
Qed.

(** X7. In the output of [analyze_sequence], whatever the threshold, a
    result is rated none exactly when it is no deviation; and a result that
    is no deviation has both checks compliant, with no missing tool and no
    missing equipment. *)
Theorem no_deviation_means_compliant `{Externals} (self : SOPComparator)
    (actions : list Action.t) (sop : Sop.t) (results : list Result.t)
    (k : nat) (r : Result.t) :
  analyze_sequence self actions sop = inr results ->
  results !! k = Some r ->
  (Result.severity r = Severity.none <-> Result.is_deviation r = false)
  /\ (Result.is_deviation r = false ->
      ToolCheck.is_compliant (Result.tool_compliance r) = true
      /\ ToolCheck.missing_tools (Result.tool_compliance r) = []
      /\ SafetyCheck.is_compliant (Result.safety_compliance r) = true
      /\ SafetyCheck.missing_equipment (Result.safety_compliance r) = []).
Proof.
  intros E Hr. pose proof E as Hlen.
  apply analyze_from_lookup in Hlen as [Hlen _].
  destruct (lookup_lt_is_Some_2 actions k) as [a Ha].
  { rewrite <- Hlen. now apply lookup_lt_Some in Hr. }
  destruct (analyze_sequence_verdict _ _ _ _ _ _ _ E Ha Hr)
    as (sim & (idx & step & _ & Htool & Hsafety) & Hdev & Hsev & _).
  split.
  - rewrite Hsev, Hdev. apply reported_severity_none_iff.
  - rewrite Hdev. unfold deviation_test.
    rewrite !orb_false_iff, !negb_false_iff. intros [[_ Ht] Hs].
    split; [exact Ht|]. split; [|split; [exact Hs|]].
    + rewrite Htool in *. now apply filter_nil_length.
    + rewrite Hsafety in *. now apply filter_nil_length.
Qed.

Lemma no_deviation_means_compliant_witness :
  exists r,
    Stub.run 0.7 Stub.actions !! 0%nat = Some r
    /\ (Result.severity r = Severity.none <-> Result.is_deviation r = false)
    /\ (Result.is_deviation r = false ->
        ToolCheck.is_compliant (Result.tool_compliance r) = true
        /\ ToolCheck.missing_tools (Result.tool_compliance r) = []
        /\ SafetyCheck.is_compliant (Result.safety_compliance r) = true
        /\ SafetyCheck.missing_equipment (Result.safety_compliance r) = []).
Proof.
  eexists. split; [vm_compute; reflexivity|].
  eapply (@no_deviation_means_compliant Stub.externals (Stub.comparator 0.7)
            Stub.actions Stub.sop (Stub.run 0.7 Stub.actions) 0).
  - vm_compute. reflexivity.
  - vm_compute. reflexivity.
Defined.

(** X8. The verdict on an action depends on that action and its position
    only: two analysed sequences that have the same action at the same
    position have the same result there, whatever the other actions. *)
Theorem verdict_independent `{Externals} (self : SOPComparator)
    (sop : Sop.t) (actions actions' : list Action.t)
    (results results' : list Result.t) (k : nat) (a : Action.t) :
  analyze_sequence self actions sop = inr results ->
  analyze_sequence self actions' sop = inr results' ->
  actions !! k = Some a ->
  actions' !! k = Some a ->
  results !! k = results' !! k.
Proof.
  intros E E' Ha Ha'.
  destruct (analyze_sequence_results_exist _ _ _ _ _ _ E Ha) as [r Hr].
  destruct (analyze_sequence_results_exist _ _ _ _ _ _ E' Ha') as [r' Hr'].
  apply analyze_from_lookup in E as [_ E].
  apply analyze_from_lookup in E' as [_ E'].
  specialize (E k a r Ha Hr). specialize (E' k a r' Ha' Hr').
  rewrite Hr, Hr'. congruence.
Qed.

Lemma verdict_independent_witness :
  Stub.run 0.7 Stub.actions !! 1%nat
  = Stub.run 0.7 [Stub.bare_08; Stub.near_miss] !! 1%nat.
Proof.
  apply (@verdict_independent Stub.externals (Stub.comparator 0.7) Stub.sop
           Stub.actions [Stub.bare_08; Stub.near_miss]
           (Stub.run 0.7 Stub.actions)
           (Stub.run 0.7 [Stub.bare_08; Stub.near_miss]) 1 Stub.near_miss).
  - vm_compute. reflexivity.
  - vm_compute. reflexivity.
  - reflexivity.
  - reflexivity.
Defined.

(** ** Changing the threshold *)

Lemma deviation_test_threshold_mono (similarity threshold value : float)
    (tool_ok safety_ok : bool) :
  (threshold <=? value)%float = true ->
  deviation_test similarity threshold tool_ok safety_ok = true ->
  deviation_test similarity value tool_ok safety_ok = true.
Proof.
  intros Hle. unfold deviation_test.
  destruct (similarity <? threshold)%float eqn:Hlt.
  - now rewrite (ltb_leb_trans _ _ _ Hlt Hle).
  - rewrite !orb_true_iff. intros [[Hf|Ht]|Hs]; [discriminate|tauto|tauto].
Qed.

Lemma analyze_action_set_threshold `{Externals} (self : SOPComparator)
    (value : float) (sop : Sop.t) (i : nat) (a : Action.t) (r : Result.t) :
  analyze_action self sop i a = inr r ->
  exists r',
    analyze_action (set_threshold self value) sop i a = inr r'
    /\ same_but_verdict (threshold self) value r r'.
Proof.
  unfold analyze_action.
  change (find_best_match (set_threshold self value))
    with (find_best_match self).
  intros E. apply bind_inr in E as ([[idx similarity] step] & Ematch & E).
  injection E as <-. rewrite Ematch. cbn.
  eexists. split; [reflexivity|]. unfold same_but_verdict. cbn.
  repeat split. apply deviation_test_threshold_mono.
Qed.

Lemma analyze_from_set_threshold `{Externals} (self : SOPComparator)
    (value : float) (sop : Sop.t) (actions : list Action.t) (i : nat)
    (results : list Result.t) :
  analyze_from self sop i actions = inr results ->
  exists results',
    analyze_from (set_threshold self value) sop i actions = inr results'
    /\ Forall2 (same_but_verdict (threshold self) value) results results'.
Proof.
  revert i results. induction actions as [|a rest IH]; intros i results E.
  - injection E as <-. exists []. split; [reflexivity|constructor].
  - cbn [analyze_from] in E |- *.
    apply bind_inr in E as (r0 & E0 & E).
    apply bind_inr in E as (rs & Ers & E). injection E as <-.
    destruct (analyze_action_set_threshold self value _ _ _ _ E0)
      as (r0' & E0' & Hsame).
    destruct (IH _ _ Ers) as (rs' & Ers' & Hall).
    rewrite E0'. cbn. rewrite Ers'. cbn.
    exists (r0' :: rs'). split; [reflexivity|]. now constructor.
Qed.

(** X9. Assigning another threshold to the comparator, as the command line
    and the dashboard do, changes the verdicts only: the sequence is analysed
    again with the same matched steps, similarity scores and tool and safety
    checks; and when the new threshold is at least the old one, every result
    that was a deviation still is. *)
Theorem raising_threshold_keeps_deviations `{Externals}
    (self : SOPComparator) (value : float) (actions : list Action.t)
    (sop : Sop.t) (results : list Result.t) (k : nat) (r : Result.t) :
  analyze_sequence self actions sop = inr results ->
  results !! k = Some r ->
  exists results' r',
    analyze_sequence (set_threshold self value) actions sop = inr results'
    /\ length results' = length results
    /\ results' !! k = Some r'
    /\ Result.step_number r' = Result.step_number r
    /\ Result.similarity_score r' = Result.similarity_score r
    /\ Result.tool_compliance r' = Result.tool_compliance r
    /\ Result.safety_compliance r' = Result.safety_compliance r
    /\ ((threshold self <=? value)%float = true ->
        Result.is_deviation r = true -> Result.is_deviation r' = true).
Proof.
  intros E Hr.
  destruct (analyze_from_set_threshold self value _ _ _ _ E)
    as (results' & E' & Hall).
  destruct (Forall2_lookup_l _ _ _ _ _ Hall Hr) as (r' & Hr' & Hsame).
  exists results', r'. split; [exact E'|].
  split; [symmetry; now apply Forall2_length in Hall|].
  split; [exact Hr'|].
  destruct Hsame as (_ & ? & _ & ? & ? & ? & ?). repeat split; assumption.
Qed.

Lemma raising_threshold_keeps_deviations_witness :
  exists r,
    Stub.run 0.3 Stub.actions !! 2%nat = Some r
    /\ exists results' r',
         @analyze_sequence Stub.externals
           (@set_threshold Stub.externals (Stub.comparator 0.3) 0.7)
           Stub.actions Stub.sop = inr results'
         /\ length results' = length (Stub.run 0.3 Stub.actions)
         /\ results' !! 2%nat = Some r'
         /\ Result.step_number r' = Result.step_number r
         /\ Result.similarity_score r' = Result.similarity_score r
         /\ Result.tool_compliance r' = Result.tool_compliance r
         /\ Result.safety_compliance r' = Result.safety_compliance r
         /\ ((0.3 <=? 0.7)%float = true ->
             Result.is_deviation r = true -> Result.is_deviation r' = true).
Proof.
  eexists. split; [vm_compute; reflexivity|].
  eapply (@raising_threshold_keeps_deviations Stub.externals
            (Stub.comparator 0.3) 0.7 Stub.actions Stub.sop
            (Stub.run 0.3 Stub.actions) 2).
  - vm_compute. reflexivity.
  - vm_compute. reflexivity.
Defined.

Lemma Forall2_filter_length_le {A : Type} (R : A -> A -> Prop)
    (f : A -> bool) (l l' : list A) :
  Forall2 R l l' ->
  (forall x y, R x y -> f x = true -> f y = true) ->
  (length (List.filter f l) <= length (List.filter f l'))%nat.
Proof.
  intros Hall Himp. induction Hall as [|x y l l' Hxy _ IH]; simpl; [lia|].
  pose proof (Himp x y Hxy) as Hx.
  destruct (f x); simpl.
  - rewrite Hx by reflexivity. simpl. lia.
  - destruct (f y); simpl; lia.
Qed.

(** ** Further properties of the sequence aggregator *)

Lemma filter_length_le {A : Type} (f : A -> bool) (l : list A) :
  (length (List.filter f l) <= length l)%nat.
Proof.
  induction l as [|x l IH]; simpl; [lia|]. destruct (f x); simpl; lia.
Qed.

Lemma filter_length_mono {A : Type} (f g : A -> bool) (l : list A) :
  (forall x, x ∈ l -> f x = true -> g x = true) ->
  (length (List.filter f l) <= length (List.filter g l))%nat.
Proof.
  induction l as [|x l IH]; intros Himp; simpl; [lia|].
  assert (length (List.filter f l) <= length (List.filter g l))%nat as Hl
    by (apply IH; intros y Hy; apply Himp; now apply list_elem_of_further).
  pose proof (Himp x (list_elem_of_here _ _)) as Hx.
  destruct (f x); simpl.
  - rewrite Hx by reflexivity. simpl. lia.
  - destruct (g x); simpl; lia.
Qed.

Lemma filter_exclusive_length {A : Type} (f g : A -> bool) (l : list A) :
  (forall x, f x = true -> g x = false) ->
  (length (List.filter f l) + length (List.filter g l) <= length l)%nat.
Proof.
  intros Hex. induction l as [|x l IH]; simpl; [lia|].
  pose proof (Hex x) as Hx.
  destruct (f x); simpl; [rewrite Hx by reflexivity|destruct (g x)];
    simpl; lia.
Qed.

Lemma filter_length_Permutation {A : Type} (f : A -> bool) (l l' : list A) :
  l ≡ₚ l' -> length (List.filter f l) = length (List.filter f l').
Proof.
  induction 1 as [|x l l' _ IH|x y l|l l' l'' _ IH _ IH']; simpl.
  - reflexivity.
  - destruct (f x); simpl; now rewrite IH.
  - destruct (f x), (f y); reflexivity.
  - now rewrite IH.
Qed.

Lemma filter_length_0_iff {A : Type} (f : A -> bool) (l : list A) :
  length (List.filter f l) = 0%nat <-> forall x, x ∈ l -> f x = false.
Proof. rewrite <- filter_length_0. symmetry. apply Nat.eqb_eq. Qed.

Lemma filter_length_pos_iff {A : Type} (f : A -> bool) (l : list A) :
  (0 < length (List.filter f l))%nat <-> exists x, x ∈ l /\ f x = true.
Proof.
  split.
  - destruct (List.filter f l) as [|x rest] eqn:Hf; simpl; [lia|].
    intros _. exists x. apply elem_of_List_filter. rewrite Hf.
    apply list_elem_of_here.
  - intros (x & Hx & Hfx).
    assert (x ∈ List.filter f l) as Hin by now apply elem_of_List_filter.
    destruct (List.filter f l); [now apply elem_of_nil in Hin|simpl; lia].
Qed.

(** Every field that [generate_summary] counts, for any list of results. *)
Lemma generate_summary_counts (results : list Result.t) :
  exists s,
    generate_summary results = inr s
    /\ Summary.total_frames_analyzed s = length results
    /\ Summary.total_deviations s
       = length (List.filter Result.is_deviation results)
    /\ Summary.high_severity_count s
       = length (List.filter
                   (fun r => Result.is_deviation r
                             && has_severity Severity.high r) results)
    /\ Summary.medium_severity_count s
       = length (List.filter
                   (fun r => Result.is_deviation r
                             && has_severity Severity.medium r) results)
    /\ Summary.tool_violations s
       = length (List.filter tool_violation results)
    /\ Summary.safety_violations s
       = length (List.filter safety_violation results)
    /\ Summary.deviation_timestamps s
       = Result.timestamp <$> List.filter Result.is_deviation results
    /\ Summary.compliance_rate s
       = (if (0 <? length results)%nat
          then rounded_compliance_rate (length results)
                 (length (List.filter Result.is_deviation results))
          else 0%float).
Proof.
  unfold generate_summary. rewrite !filter_andb.
  destruct results as [|r0 rest].
  - eexists. split; [reflexivity|]. cbn. repeat split.
  - set (results := r0 :: rest).
    assert ((0 <? length results)%nat = true) as -> by reflexivity.
    unfold float_truediv, int_truediv.
    assert ((Z.of_nat (length results) =? 0) = false) as ->
      by (apply Z.eqb_neq; simpl; lia).
    eexists. split; [reflexivity|]. cbn [Summary.total_frames_analyzed
      Summary.total_deviations Summary.high_severity_count
      Summary.medium_severity_count Summary.compliance_rate
      Summary.tool_violations Summary.safety_violations
      Summary.deviation_timestamps].
    repeat split.
Qed.

(** X10. For any list of results, [generate_summary] returns a summary in
    which the deviations are at most the frames analysed, the high and medium
    counts together are at most the deviations, the tool and safety
    violations are each at most the frames analysed, and there is one
    deviation timestamp per deviation. *)
Theorem generate_summary_bounds (results : list Result.t) :
  exists s,
    generate_summary results = inr s
    /\ Summary.total_frames_analyzed s = length results
    /\ (Summary.total_deviations s <= Summary.total_frames_analyzed s)%nat
    /\ (Summary.high_severity_count s + Summary.medium_severity_count s
        <= Summary.total_deviations s)%nat
    /\ (Summary.tool_violations s <= Summary.total_frames_analyzed s)%nat
    /\ (Summary.safety_violations s <= Summary.total_frames_analyzed s)%nat
    /\ length (Summary.deviation_timestamps s) = Summary.total_deviations s.
Proof.
  destruct (generate_summary_counts results)
    as (s & E & Htotal & Hdev & Hhigh & Hmed & Htool & Hsafe & Hts & _).
  exists s. split; [exact E|]. split; [exact Htotal|].
  rewrite Htotal, Hdev, Hhigh, Hmed, Htool, Hsafe, Hts, length_fmap.
  repeat split; try apply filter_length_le.
  rewrite <- !filter_andb. apply filter_exclusive_length.
  intros r. unfold has_severity.
  destruct (Result.severity r); simpl; congruence.
Qed.

(** X11. The summary of the results of [analyze_sequence] is always
    produced; it counts one frame per action, and every tool violation and
    every safety violation in it is a deviation, so neither count exceeds the
    number of deviations. *)
Theorem summary_of_analysis `{Externals} (self : SOPComparator)
    (actions : list Action.t) (sop : Sop.t) (results : list Result.t) :
  analyze_sequence self actions sop = inr results ->
  exists s,
    generate_summary results = inr s
    /\ Summary.total_frames_analyzed s = length actions
    /\ (Summary.tool_violations s <= Summary.total_deviations s)%nat
    /\ (Summary.safety_violations s <= Summary.total_deviations s)%nat.
Proof.
  intros E.
  destruct (generate_summary_counts results)
    as (s & Es & Htotal & Hdev & _ & _ & Htool & Hsafe & _).
  exists s. split; [exact Es|].
  pose proof E as Hlen. apply analyze_from_lookup in Hlen as [Hlen _].
  split; [congruence|]. rewrite Hdev, Htool, Hsafe.
  assert (forall r, r ∈ results ->
            (tool_violation r = true -> Result.is_deviation r = true)
            /\ (safety_violation r = true -> Result.is_deviation r = true))
    as Hviol.
  { intros r Hr. apply list_elem_of_lookup in Hr as [k Hk].
    destruct (lookup_lt_is_Some_2 actions k) as [a Ha].
    { rewrite <- Hlen. now apply lookup_lt_Some in Hk. }
    destruct (analyze_sequence_verdict _ _ _ _ _ _ _ E Ha Hk)
      as (sim & _ & Hd & _).
    rewrite Hd. unfold tool_violation, safety_violation, deviation_test.
    split; intros ->; rewrite ?orb_true_r; reflexivity. }
  split; apply filter_length_mono; intros r Hr; now apply Hviol.
Qed.

Lemma summary_of_analysis_witness :
  exists s,
    generate_summary (Stub.run 0.7 Stub.actions) = inr s
    /\ Summary.total_frames_analyzed s = length Stub.actions
    /\ (Summary.tool_violations s <= Summary.total_deviations s)%nat
    /\ (Summary.safety_violations s <= Summary.total_deviations s)%nat.
Proof.
  apply (@summary_of_analysis Stub.externals (Stub.comparator 0.7)
           Stub.actions Stub.sop (Stub.run 0.7 Stub.actions)).
  vm_compute. reflexivity.
Defined.

(** X12. The counts and the compliance rate of [generate_summary] do not
    depend on the order of the results: two lists that are permutations of
    each other have summaries with the same totals, severity counts,
    violation counts and compliance rate. *)
Theorem generate_summary_order_irrelevant (results results' : list Result.t) :
  results ≡ₚ results' ->
  exists s s',
    generate_summary results = inr s
    /\ generate_summary results' = inr s'
    /\ Summary.total_frames_analyzed s = Summary.total_frames_analyzed s'
    /\ Summary.total_deviations s = Summary.total_deviations s'
    /\ Summary.high_severity_count s = Summary.high_severity_count s'
    /\ Summary.medium_severity_count s = Summary.medium_severity_count s'
    /\ Summary.tool_violations s = Summary.tool_violations s'
    /\ Summary.safety_violations s = Summary.safety_violations s'
    /\ Summary.compliance_rate s = Summary.compliance_rate s'.
Proof.
  intros Hperm.
  destruct (generate_summary_counts results)
    as (s & E & Htotal & Hdev & Hhigh & Hmed & Htool & Hsafe & _ & Hrate).
  destruct (generate_summary_counts results')
    as (s' & E' & Htotal' & Hdev' & Hhigh' & Hmed' & Htool' & Hsafe' & _
        & Hrate').
  exists s, s'. split; [exact E|]. split; [exact E'|].
  rewrite Htotal, Htotal', Hdev, Hdev', Hhigh, Hhigh', Hmed, Hmed', Htool,
    Htool', Hsafe, Hsafe', Hrate, Hrate'.
  rewrite (Permutation_length Hperm).
  rewrite !(filter_length_Permutation _ _ _ Hperm). repeat split.
Qed.

Lemma generate_summary_order_irrelevant_witness :
  exists s s',
    generate_summary
      [Stub.res false Severity.none 0.9; Stub.res true Severity.high 0.4]
      = inr s
    /\ generate_summary
         [Stub.res true Severity.high 0.4; Stub.res false Severity.none 0.9]
       = inr s'
    /\ Summary.total_frames_analyzed s = Summary.total_frames_analyzed s'
    /\ Summary.total_deviations s = Summary.total_deviations s'
    /\ Summary.high_severity_count s = Summary.high_severity_count s'
    /\ Summary.medium_severity_count s = Summary.medium_severity_count s'
    /\ Summary.tool_violations s = Summary.tool_violations s'
    /\ Summary.safety_violations s = Summary.safety_violations s'
    /\ Summary.compliance_rate s = Summary.compliance_rate s'.
Proof.
  apply (generate_summary_order_irrelevant
           [Stub.res false Severity.none 0.9; Stub.res true Severity.high 0.4]
           [Stub.res true Severity.high 0.4; Stub.res false Severity.none 0.9]).
  apply perm_swap.
Defined.

(** X13. The exit code of the command line reflects the worst deviation in
    the results that were summarised: it is 2 exactly when some result is a
    deviation rated high, 0 exactly when no result is a deviation, and 1
    exactly when there are deviations and none of them is rated high. *)
Theorem exit_status_spec (results : list Result.t) :
  exists s,
    generate_summary results = inr s
    /\ (exit_status s = 2 <->
        exists r, r ∈ results /\ Result.is_deviation r = true
                  /\ Result.severity r = Severity.high)
    /\ (exit_status s = 0 <->
        forall r, r ∈ results -> Result.is_deviation r = false)
    /\ (exit_status s = 1 <->
        (exists r, r ∈ results /\ Result.is_deviation r = true)
        /\ forall r, r ∈ results -> Result.is_deviation r = true ->
             Result.severity r <> Severity.high).
Proof.
  destruct (generate_summary_counts results)
    as (s & E & _ & Hdev & Hhigh & _).
  exists s. split; [exact E|]. unfold exit_status. rewrite Hdev, Hhigh.
  set (is_high := fun r => Result.is_deviation r
                           && has_severity Severity.high r).
  assert (forall r, is_high r = true <->
            Result.is_deviation r = true
            /\ Result.severity r = Severity.high) as Hhigh_iff.
  { intros r. unfold is_high, has_severity.
    now rewrite andb_true_iff, bool_decide_eq_true. }
  destruct (0 <? length (List.filter is_high results))%nat eqn:Hh.
  - apply Nat.ltb_lt, filter_length_pos_iff in Hh as (r0 & Hr0 & Hh0).
    apply Hhigh_iff in Hh0 as [Hd0 Hs0].
    split; [|split].
    + split; [intros _; eauto|reflexivity].
    + split; [discriminate|]. intros Hall.
      rewrite (Hall r0 Hr0) in Hd0. discriminate.
    + split; [discriminate|]. intros [_ Hno]. now destruct (Hno r0 Hr0 Hd0).
  - apply Nat.ltb_ge in Hh.
    assert (forall r, r ∈ results -> Result.is_deviation r = true ->
              Result.severity r <> Severity.high) as Hno.
    { intros r Hr Hd Hs.
      assert (0 < length (List.filter is_high results))%nat; [|lia].
      apply filter_length_pos_iff. exists r. split; [exact Hr|].
      now apply Hhigh_iff. }
    destruct (0 <? length (List.filter Result.is_deviation results))%nat
      eqn:Hd.
    + apply Nat.ltb_lt, filter_length_pos_iff in Hd as (r0 & Hr0 & Hd0).
      split; [|split].
      * split; [discriminate|]. intros (r & Hr & Hdr & Hsr).
        now destruct (Hno r Hr Hdr).
      * split; [discriminate|]. intros Hall.
        rewrite (Hall r0 Hr0) in Hd0. discriminate.
      * split; [intros _; split; eauto|reflexivity].
    + apply Nat.ltb_ge in Hd.
      assert (forall r, r ∈ results -> Result.is_deviation r = false)
        as Hall by (apply filter_length_0_iff; lia).
      split; [|split].
      * split; [discriminate|]. intros (r & Hr & Hdr & _).
        rewrite (Hall r Hr) in Hdr. discriminate.
      * split; [intros _; exact Hall|reflexivity].
      * split; [discriminate|]. intros [(r & Hr & Hdr) _].
        rewrite (Hall r Hr) in Hdr. discriminate.
Qed.

(** ** The grade of the summary report *)

Lemma SFleb_trans (a b c : spec_float) :
  SFleb a b = true -> SFleb b c = true -> SFleb a c = true.
Proof. sf_cases. Qed.

Lemma SFltb_negb_leb (a b : spec_float) :
  SFleb a a = true -> SFleb b b = true -> SFltb a b = negb (SFleb b a).
Proof. sf_cases. Qed.

Lemma SFleb_refl_l (a b : spec_float) : SFleb a b = true -> SFleb a a = true.
Proof. sf_cases. Qed.

Lemma SFleb_refl_r (a b : spec_float) : SFleb a b = true -> SFleb b b = true.
Proof. sf_cases. Qed.

Lemma leb_trans (a b c : float) :
  (a <=? b)%float = true -> (b <=? c)%float = true -> (a <=? c)%float = true.
Proof. rewrite !FloatAxioms.leb_spec. apply SFleb_trans. Qed.

Lemma ltb_negb_leb (a b : float) :
  (a <=? a)%float = true -> (b <=? b)%float = true ->
  (a <? b)%float = negb (b <=? a)%float.
Proof.
  rewrite FloatAxioms.ltb_spec, !FloatAxioms.leb_spec. apply SFltb_negb_leb.
Qed.

Lemma leb_refl_l (a b : float) :
  (a <=? b)%float = true -> (a <=? a)%float = true.
Proof. rewrite !FloatAxioms.leb_spec. apply SFleb_refl_l. Qed.

Lemma leb_refl_r (a b : float) :
  (a <=? b)%float = true -> (b <=? b)%float = true.
Proof. rewrite !FloatAxioms.leb_spec. apply SFleb_refl_r. Qed.

Lemma compliance_grade_rank (compliance_rate : float) :
  grade_rank (fst (compliance_grade compliance_rate))
  = if (90 <=? compliance_rate)%float then 4%nat
    else if (80 <=? compliance_rate)%float then 3%nat
    else if (70 <=? compliance_rate)%float then 2%nat
    else if (60 <=? compliance_rate)%float then 1%nat
    else 0%nat.
Proof.
  unfold compliance_grade.
  destruct (90 <=? compliance_rate)%float; [reflexivity|].
  destruct (80 <=? compliance_rate)%float; [reflexivity|].
  destruct (70 <=? compliance_rate)%float; [reflexivity|].
  destruct (60 <=? compliance_rate)%float; reflexivity.
Qed.

(** X14. The grade of the summary report never gets worse when the
    compliance rate gets higher, and the two training recommendations are
    added exactly for the grades D and F, that is, below a rate of 70. *)
Theorem compliance_grade_monotone (lower higher : float) :
  (lower <=? higher)%float = true ->
  (grade_rank (fst (compliance_grade lower))
   <= grade_rank (fst (compliance_grade higher)))%nat
  /\ (recommends_training lower = true <->
      (grade_rank (fst (compliance_grade lower)) <= 1)%nat)
  /\ (recommends_training higher = true <->
      (grade_rank (fst (compliance_grade higher)) <= 1)%nat).
Proof.
  intros Hle.
  assert (forall bound, (bound <=? lower)%float = true ->
            (bound <=? higher)%float = true) as Hup
    by (intros bound Hb; now apply leb_trans with lower).
  assert (forall rate, (rate <=? rate)%float = true ->
            (recommends_training rate = true <->
             (grade_rank (fst (compliance_grade rate)) <= 1)%nat)) as Htrain.
  { intros rate Hrate. unfold recommends_training.
    rewrite (ltb_negb_leb rate 70%float Hrate eq_refl), compliance_grade_rank.
    destruct (90 <=? rate)%float eqn:H90.
    - rewrite (leb_trans 70%float 90%float rate eq_refl H90). simpl. split; [discriminate|lia].
    - destruct (80 <=? rate)%float eqn:H80.
      + rewrite (leb_trans 70%float 80%float rate eq_refl H80). simpl.
        split; [discriminate|lia].
      + destruct (70 <=? rate)%float; simpl; [split; [discriminate|lia]|].
        destruct (60 <=? rate)%float; split; (reflexivity || lia). }
  split; [|split].
  - rewrite !compliance_grade_rank.
    destruct (90 <=? lower)%float eqn:H90; [now rewrite (Hup 90%float H90)|].
    destruct (80 <=? lower)%float eqn:H80.
    { rewrite (Hup 80%float H80). destruct (90 <=? higher)%float; lia. }
    destruct (70 <=? lower)%float eqn:H70.
    { rewrite (Hup 70%float H70).
      destruct (90 <=? higher)%float, (80 <=? higher)%float; lia. }
    destruct (60 <=? lower)%float eqn:H60.
    { rewrite (Hup 60%float H60).
      destruct (90 <=? higher)%float, (80 <=? higher)%float,
        (70 <=? higher)%float; lia. }
    lia.
  - apply Htrain. now apply leb_refl_l with higher.
  - apply Htrain. now apply leb_refl_r with lower.
Qed.

Lemma compliance_grade_monotone_witness :
  (grade_rank (fst (compliance_grade 66.7))
   <= grade_rank (fst (compliance_grade 85)))%nat
  /\ (recommends_training 66.7 = true <->
      (grade_rank (fst (compliance_grade 66.7)) <= 1)%nat)
  /\ (recommends_training 85 = true <->
      (grade_rank (fst (compliance_grade 85)) <= 1)%nat).
Proof.
  apply (compliance_grade_monotone 66.7%float 85%float).
  vm_compute. reflexivity.
Defined.

(** ** Frame extraction *)

Lemma string_length_append (s t : string) :
  String.length (s +:+ t) = (String.length s + String.length t)%nat.
Proof. induction s as [|a s IH]; simpl; [reflexivity|now rewrite IH]. Qed.

Lemma string_append_inj_r (s1 s2 t : string) :
  s1 +:+ t = s2 +:+ t -> s1 = s2.
Proof.
  revert s2. induction s1 as [|a s1 IH]; intros [|b s2] Heq; simpl in Heq.
  - reflexivity.
  - apply (f_equal String.length) in Heq. simpl in Heq.
    rewrite !string_length_append in Heq. simpl in Heq. lia.
  - apply (f_equal String.length) in Heq. simpl in Heq.
    rewrite !string_length_append in Heq. simpl in Heq. lia.
  - injection Heq as -> Heq. f_equal. now apply IH.
Qed.

Lemma int_mod_zero_iff (c interval e : Z) :
  interval <> 0 ->
  c <= e * Z.abs interval < c + Z.abs interval ->
  (exists m, int_mod c interval = inr m
             /\ ((m =? 0) = true <-> c = e * Z.abs interval)).
Proof.
  intros Hne Hinv. unfold int_mod.
  destruct (interval =? 0) eqn:Hz; [apply Z.eqb_eq in Hz; congruence|].
  exists (c mod interval). split; [reflexivity|].
  rewrite Z.eqb_eq, (Z.mod_divide c interval Hne), <- Z.divide_abs_l.
  split.
  - intros [q Hq]. subst c. f_equal. nia.
  - intros ->. now exists e.
Qed.

Lemma extract_loop_spec {Image : Type} (fps interval : Z)
    (to_read : list Image) (c e : Z) :
  fps <> 0 -> interval <> 0 ->
  c <= e * Z.abs interval < c + Z.abs interval ->
  exists frames_data,
    extract_loop fps interval c e to_read = inr frames_data
    /\ c + Z.of_nat (length to_read)
       <= (e + Z.of_nat (length frames_data)) * Z.abs interval
       < c + Z.of_nat (length to_read) + Z.abs interval
    /\ forall (k : nat) entry,
         frames_data !! k = Some entry ->
         Video.frame_number entry = (e + Z.of_nat k) * Z.abs interval
         /\ Video.path entry = temp_frame_path (e + Z.of_nat k)
         /\ int_truediv (Video.frame_number entry) fps
            = inr (Video.timestamp entry)
         /\ c <= Video.frame_number entry < c + Z.of_nat (length to_read).
Proof.
  intros Hfps Hne. revert c e.
  induction to_read as [|frame rest IH]; intros c e Hinv.
  - exists []. split; [reflexivity|]. split; [simpl; lia|].
    intros k entry Hk. now rewrite lookup_nil in Hk.
  - cbn [extract_loop].
    destruct (int_mod_zero_iff c interval e Hne Hinv) as (m & -> & Hm).
    cbn [mbind result_bind].
    destruct (m =? 0) eqn:Hz.
    + assert (c = e * Z.abs interval) as Hc by now apply Hm.
      destruct (IH (c + 1) (e + 1)) as (fd & -> & Hlen & Hentries); [lia|].
      unfold int_truediv at 1.
      destruct (fps =? 0) eqn:Hf; [apply Z.eqb_eq in Hf; congruence|].
      cbn [mbind result_bind mret result_ret].
      eexists. split; [reflexivity|]. split.
      * cbn [length]. lia.
      * intros [|k] entry Hk; cbn in Hk.
        -- injection Hk as <-. cbn [Video.frame_number Video.path
             Video.timestamp]. rewrite Z.add_0_r.
           split; [exact Hc|]. split; [reflexivity|].
           split; [unfold int_truediv; now rewrite Hf|].
           cbn [length]. lia.
        -- destruct (Hentries k entry Hk) as (Hn & Hp & Ht & Hr).
           replace (e + Z.of_nat (S k)) with (e + 1 + Z.of_nat k) by lia.
           split; [exact Hn|]. split; [exact Hp|]. split; [exact Ht|].
           cbn [length]. lia.
    + assert (c <> e * Z.abs interval) as Hc
        by (intros Hc; apply Hm in Hc; congruence).
      destruct (IH (c + 1) e) as (fd & -> & Hlen & Hentries); [lia|].
      exists fd. split; [reflexivity|]. split.
      * cbn [length]. lia.
      * intros k entry Hk.
        destruct (Hentries k entry Hk) as (Hn & Hp & Ht & Hr).
        split; [exact Hn|]. split; [exact Hp|]. split; [exact Ht|].
        cbn [length]. lia.
Qed.

(** X15. [extract_frames] raises [ValueError] when the capture did not
    open. When the frame rate read from the video truncates to 0, or the
    requested rate is 0, the sampling interval is 0: a video without frames
    then gives the empty list, and any other video raises
    [ZeroDivisionError] at its first frame. *)
Theorem extract_frames_zero_interval {Image : Type}
    (cap : Video.Capture Image) (frame_rate fps : Z) :
  (Video.isOpened cap = false ->
   extract_frames cap frame_rate = inl ValueError)
  /\ (Video.isOpened cap = true ->
      py_int (Video.fps_property cap) = inr fps ->
      fps * frame_rate = 0 ->
      (Video.frames cap = [] -> extract_frames cap frame_rate = inr [])
      /\ (Video.frames cap <> [] ->
          extract_frames cap frame_rate = inl ZeroDivisionError)).
Proof.
  unfold extract_frames. split.
  - intros ->. reflexivity.
  - intros -> -> Hzero. cbn. rewrite Hzero. split.
    + intros ->. reflexivity.
    + destruct (Video.frames cap) as [|frame rest]; [congruence|].
      intros _. reflexivity.
Qed.

(** X16. With a sampling interval other than 0, [extract_frames] returns
    the frames whose number is a multiple of the interval, in order: the
    [k]-th entry has frame number [k * |interval|], below the number of
    frames read, the timestamp [frame_number / fps] and the temporary path
    numbered [k]; the number of entries is the number of frames divided by
    the interval, rounded up; and no two entries share a path. *)
Theorem extract_frames_spec {Image : Type} (cap : Video.Capture Image)
    (frame_rate fps : Z) :
  Video.isOpened cap = true ->
  py_int (Video.fps_property cap) = inr fps ->
  fps * frame_rate <> 0 ->
  exists frames_data,
    extract_frames cap frame_rate = inr frames_data
    /\ Z.of_nat (length (Video.frames cap))
       <= Z.of_nat (length frames_data) * Z.abs (fps * frame_rate)
       < Z.of_nat (length (Video.frames cap)) + Z.abs (fps * frame_rate)
    /\ (forall (k : nat) entry,
          frames_data !! k = Some entry ->
          Video.frame_number entry = Z.of_nat k * Z.abs (fps * frame_rate)
          /\ Video.frame_number entry
             < Z.of_nat (length (Video.frames cap))
          /\ int_truediv (Video.frame_number entry) fps
             = inr (Video.timestamp entry)
          /\ Video.path entry = temp_frame_path (Z.of_nat k))
    /\ NoDup (Video.path <$> frames_data).
Proof.
  intros Hopen Hfps Hne. unfold extract_frames. rewrite Hopen, Hfps. cbn.
  assert (fps <> 0) as Hfps0 by (intros ->; lia).
  destruct (extract_loop_spec fps (fps * frame_rate) (Video.frames cap) 0 0
              Hfps0 Hne) as (fd & E & Hlen & Hentries); [lia|].
  exists fd. split; [exact E|]. split; [lia|]. split.
  - intros k entry Hk. destruct (Hentries k entry Hk) as (Hn & Hp & Ht & Hr).
    rewrite Z.add_0_l in Hn, Hp. repeat split; try assumption. lia.
  - apply NoDup_alt. intros i j p Hi Hj.
    rewrite list_lookup_fmap in Hi, Hj.
    destruct (fd !! i) as [ei|] eqn:Hei; [|discriminate].
    destruct (fd !! j) as [ej|] eqn:Hej; [|discriminate].
    injection Hi as <-. injection Hj as Hj.
    destruct (Hentries i ei Hei) as (_ & Hpi & _).
    destruct (Hentries j ej Hej) as (_ & Hpj & _).
    rewrite Hpi, Hpj in Hj. unfold temp_frame_path in Hj.
    apply (inj (String.append "/tmp/frame_")) in Hj.
    apply string_append_inj_r in Hj.
    apply (inj pretty) in Hj. lia.
Qed.

Lemma extract_frames_spec_witness :
  exists frames_data,
    extract_frames Clip.capture 2 = inr frames_data
    /\ Z.of_nat (length (Video.frames Clip.capture))
       <= Z.of_nat (length frames_data) * Z.abs (30 * 2)
       < Z.of_nat (length (Video.frames Clip.capture)) + Z.abs (30 * 2)
    /\ (forall (k : nat) entry,
          frames_data !! k = Some entry ->
          Video.frame_number entry = Z.of_nat k * Z.abs (30 * 2)
          /\ Video.frame_number entry
             < Z.of_nat (length (Video.frames Clip.capture))
          /\ int_truediv (Video.frame_number entry) 30
             = inr (Video.timestamp entry)
          /\ Video.path entry = temp_frame_path (Z.of_nat k))
    /\ NoDup (Video.path <$> frames_data).
Proof.
  apply (extract_frames_spec Clip.capture 2 30).
  - reflexivity.
  - vm_compute. reflexivity.
  - lia.
Defined.

(** ** Alerts *)

Lemma generate_batch_alerts_ok `{Formats} (results : list Result.t)
    (self : AlertGenerator) :
  (forall r, r ∈ results -> Result.is_deviation r = true ->
     exists t, format_timestamp (Result.timestamp r) = inr t) ->
  exists alerts,
    generate_batch_alerts self results
    = (inr alerts,
       {| alert_count := alert_count self + Z.of_nat (length alerts) |})
    /\ Forall2
         (fun r alert =>
            exists t, format_timestamp (Result.timestamp r) = inr t
                      /\ alert = alert_text r t)
         (List.filter Result.is_deviation results) alerts.
Proof.
  revert self. induction results as [|r rest IH]; intros self Hok.
  - exists []. split; [|constructor]. cbn. destruct self as [n].
    cbn. now rewrite Z.add_0_r.
  - assert (forall r', r' ∈ rest -> Result.is_deviation r' = true ->
              exists t, format_timestamp (Result.timestamp r') = inr t)
      as Hrest by (intros r' Hr'; apply Hok; now apply list_elem_of_further).
    cbn [generate_batch_alerts List.filter].
    destruct (Result.is_deviation r) eqn:Hdev.
    + destruct (Hok r (list_elem_of_here _ _) Hdev) as [t Ht].
      unfold generate_deviation_alert. rewrite Ht.
      destruct (IH {| alert_count := alert_count self + 1 |} Hrest)
        as (alerts & -> & Hall).
      exists (alert_text r t :: alerts). split.
      * cbn [alert_count length]. do 2 f_equal. lia.
      * constructor; [eauto|exact Hall].
    + apply IH, Hrest.
Qed.

(** X17. When the timestamp of every deviating result can be formatted,
    [generate_batch_alerts] returns one alert per deviating result, in the
    order of the results, each the text for that result; it advances
    [alert_count] by their number, which is the [total_deviations] of the
    summary of the same results. Results that are no deviation are never
    formatted. *)
Theorem generate_batch_alerts_returns `{Formats} (self : AlertGenerator)
    (results : list Result.t) :
  (forall r, r ∈ results -> Result.is_deviation r = true ->
     exists t, format_timestamp (Result.timestamp r) = inr t) ->
  exists alerts s,
    generate_batch_alerts self results
    = (inr alerts,
       {| alert_count := alert_count self + Z.of_nat (length alerts) |})
    /\ generate_summary results = inr s
    /\ length alerts = Summary.total_deviations s
    /\ Forall2
         (fun r alert =>
            exists t, format_timestamp (Result.timestamp r) = inr t
                      /\ alert = alert_text r t)
         (List.filter Result.is_deviation results) alerts.
Proof.
  intros Hok.
  destruct (generate_batch_alerts_ok results self Hok) as (alerts & E & Hall).
  destruct (generate_summary_counts results) as (s & Es & _ & Hdev & _).
  exists alerts, s. split; [exact E|]. split; [exact Es|].
  split; [|exact Hall].
  rewrite Hdev. symmetry. now apply Forall2_length in Hall.
Qed.

(** X18. [generate_batch_alerts] stops at the first deviating result whose
    timestamp cannot be formatted: it raises the exception of
    [format_timestamp], returns no alert, and leaves [alert_count] advanced
    by the number of deviating results before that one. *)
Theorem generate_batch_alerts_raises `{Formats} (self : AlertGenerator)
    (before after : list Result.t) (r : Result.t) (e : exception) :
  (forall r', r' ∈ before -> Result.is_deviation r' = true ->
     exists t, format_timestamp (Result.timestamp r') = inr t) ->
  Result.is_deviation r = true ->
  format_timestamp (Result.timestamp r) = inl e ->
  generate_batch_alerts self (before ++ r :: after)
  = (inl e,
     {| alert_count :=
          alert_count self
          + Z.of_nat (length (List.filter Result.is_deviation before)) |}).
Proof.
  revert self. induction before as [|r0 rest IH]; intros self Hok Hdev Hfail.
  - cbn [app generate_batch_alerts]. rewrite Hdev.
    unfold generate_deviation_alert. rewrite Hfail.
    destruct self as [n]. cbn. now rewrite Z.add_0_r.
  - assert (forall r', r' ∈ rest -> Result.is_deviation r' = true ->
              exists t, format_timestamp (Result.timestamp r') = inr t)
      as Hrest by (intros r' Hr'; apply Hok; now apply list_elem_of_further).
    cbn [app generate_batch_alerts List.filter].
    destruct (Result.is_deviation r0) eqn:Hdev0.
    + destruct (Hok r0 (list_elem_of_here _ _) Hdev0) as [t Ht].
      unfold generate_deviation_alert. rewrite Ht.
      rewrite (IH {| alert_count := alert_count self + 1 |} Hrest Hdev Hfail).
      cbn [alert_count length]. do 2 f_equal. lia.
    + now apply IH.
Qed.

Lemma generate_batch_alerts_returns_witness :
  exists alerts s,
    @generate_batch_alerts StubFormats.formats new_alert_generator
      [Stub.res false Severity.none 0.9; StubFormats.deviation_at 125.5;
       StubFormats.deviation_at 7]
    = (inr alerts,
       {| alert_count :=
            alert_count new_alert_generator + Z.of_nat (length alerts) |})
    /\ generate_summary
         [Stub.res false Severity.none 0.9; StubFormats.deviation_at 125.5;
          StubFormats.deviation_at 7] = inr s
    /\ length alerts = Summary.total_deviations s
    /\ Forall2
         (fun r alert =>
            exists t,
              @format_timestamp StubFormats.formats (Result.timestamp r)
              = inr t
              /\ alert = @alert_text StubFormats.formats r t)
         (List.filter Result.is_deviation
            [Stub.res false Severity.none 0.9; StubFormats.deviation_at 125.5;
             StubFormats.deviation_at 7]) alerts.
Proof.
  apply (@generate_batch_alerts_returns StubFormats.formats
           new_alert_generator
           [Stub.res false Severity.none 0.9; StubFormats.deviation_at 125.5;
            StubFormats.deviation_at 7]).
  intros r Hr _.
  apply elem_of_cons in Hr as [->|Hr]; [eexists; vm_compute; reflexivity|].
  apply elem_of_cons in Hr as [->|Hr]; [eexists; vm_compute; reflexivity|].
  apply list_elem_of_singleton in Hr as ->. eexists. vm_compute. reflexivity.
Defined.

Lemma generate_batch_alerts_raises_witness :
  @generate_batch_alerts StubFormats.formats new_alert_generator
    ([StubFormats.deviation_at 7; Stub.res false Severity.none 0.9]
     ++ StubFormats.deviation_at nan :: [StubFormats.deviation_at 9])
  = (inl ValueError,
     {| alert_count :=
          alert_count new_alert_generator
          + Z.of_nat
              (length
                 (List.filter Result.is_deviation
                    [StubFormats.deviation_at 7;
                     Stub.res false Severity.none 0.9])) |}).
Proof.
  apply (@generate_batch_alerts_raises StubFormats.formats
           new_alert_generator
           [StubFormats.deviation_at 7; Stub.res false Severity.none 0.9]
           [StubFormats.deviation_at 9] (StubFormats.deviation_at nan)
           ValueError).
  - intros r Hr _.
    apply elem_of_cons in Hr as [->|Hr]; [eexists; vm_compute; reflexivity|].
    apply list_elem_of_singleton in Hr as ->. eexists. vm_compute.
    reflexivity.
  - reflexivity.
  - vm_compute. reflexivity.
Defined.

(** X19. Raising the threshold of the comparator never lowers the number
    of deviations in the summary: when the sequence is analysed and
    summarised with a threshold at least as high, the number of frames is
    the same and [total_deviations] is at least what it was. *)
Theorem raising_threshold_summary `{Externals} (self : SOPComparator)
    (value : float) (actions : list Action.t) (sop : Sop.t)
    (results : list Result.t) :
  (threshold self <=? value)%float = true ->
  analyze_sequence self actions sop = inr results ->
  exists results' s s',
    analyze_sequence (set_threshold self value) actions sop = inr results'
    /\ generate_summary results = inr s
    /\ generate_summary results' = inr s'
    /\ Summary.total_frames_analyzed s' = Summary.total_frames_analyzed s
    /\ (Summary.total_deviations s <= Summary.total_deviations s')%nat.
Proof.
  intros Hle E.
  destruct (analyze_from_set_threshold self value _ _ _ _ E)
    as (results' & E' & Hall).
  destruct (generate_summary_counts results) as (s & Es & Ht & Hd & _).
  destruct (generate_summary_counts results') as (s' & Es' & Ht' & Hd' & _).
  exists results', s, s'. split; [exact E'|]. split; [exact Es|].
  split; [exact Es'|]. rewrite Ht, Ht', Hd, Hd'. split.
  - symmetry. now apply Forall2_length in Hall.
  - apply (Forall2_filter_length_le _ _ _ _ Hall).
    intros r r' (_ & _ & _ & _ & _ & _ & Hkeep). now apply Hkeep.
Qed.

Lemma raising_threshold_summary_witness :
  exists results' s s',
    @analyze_sequence Stub.externals
      (@set_threshold Stub.externals (Stub.comparator 0.3) 0.7)
      Stub.actions Stub.sop = inr results'
    /\ generate_summary (Stub.run 0.3 Stub.actions) = inr s
    /\ generate_summary results' = inr s'
    /\ Summary.total_frames_analyzed s' = Summary.total_frames_analyzed s
    /\ (Summary.total_deviations s <= Summary.total_deviations s')%nat.
Proof.
  apply (@raising_threshold_summary Stub.externals (Stub.comparator 0.3)
           0.7%float Stub.actions Stub.sop (Stub.run 0.3 Stub.actions)).
  - vm_compute. reflexivity.
  - vm_compute. reflexivity.
Defined.

(** ** API key validation *)

Lemma remove_char_elem (c x : N) (s : list N) :
  x ∈ Utils.remove_char c s <-> x ∈ s /\ x <> c.
Proof.
  unfold Utils.remove_char.
  rewrite elem_of_List_filter, negb_true_iff, N.eqb_neq. reflexivity.
Qed.

Lemma isalnum_spec `{Unicode} (s : list N) :
  Utils.isalnum s = true <->
  s <> [] /\ forall c, c ∈ s -> char_isalnum c = true.
Proof.
  unfold Utils.isalnum. destruct s as [|c0 rest].
  - split; [discriminate|]. intros [Hne _]. congruence.
  - rewrite forallb_forall. split.
    + intros Hall. split; [discriminate|]. intros c Hc.
      now apply Hall, list_elem_of_In.
    + intros [_ Hall] c Hc. now apply Hall, list_elem_of_In.
Qed.

(** X20. [validate_api_key] accepts a key exactly when it has at least 20
    characters, every character is alphanumeric, a hyphen or an underscore,
    and at least one character is neither a hyphen nor an underscore. *)
Theorem validate_api_key_spec `{Unicode} (api_key : list N) :
  Utils.validate_api_key api_key = true <->
  (20 <= length api_key)%nat
  /\ (exists c, c ∈ api_key /\ c <> 45%N /\ c <> 95%N)
  /\ (forall c, c ∈ api_key ->
        c = 45%N \/ c = 95%N \/ char_isalnum c = true).
Proof.
  unfold Utils.validate_api_key.
  assert (Utils.isalnum
            (Utils.remove_char 95 (Utils.remove_char 45 api_key)) = true
          <-> (exists c, c ∈ api_key /\ c <> 45%N /\ c <> 95%N)
              /\ (forall c, c ∈ api_key ->
                    c = 45%N \/ c = 95%N \/ char_isalnum c = true))
    as Hcore.
  { rewrite isalnum_spec. split.
    - intros [Hne Hall]. split.
      + destruct (Utils.remove_char 95 (Utils.remove_char 45 api_key))
          as [|c rest] eqn:Hrem; [congruence|].
        assert (c ∈ Utils.remove_char 95 (Utils.remove_char 45 api_key))
          as Hc by (rewrite Hrem; apply list_elem_of_here).
        apply remove_char_elem in Hc as [Hc H95].
        apply remove_char_elem in Hc as [Hc H45]. eauto.
      + intros c Hc.
        destruct (N.eq_dec c 45%N) as [?|H45]; [now left|].
        destruct (N.eq_dec c 95%N) as [?|H95]; [now right; left|].
        right; right. apply Hall.
        apply remove_char_elem. split; [|exact H95].
        apply remove_char_elem. now split.
    - intros [(c & Hc & H45 & H95) Hall]. split.
      + assert (c ∈ Utils.remove_char 95 (Utils.remove_char 45 api_key))
          as Hin.
        { apply remove_char_elem. split; [|exact H95].
          apply remove_char_elem. now split. }
        intros Hnil. rewrite Hnil in Hin. now apply elem_of_nil in Hin.
      + intros x Hx. apply remove_char_elem in Hx as [Hx H95'].
        apply remove_char_elem in Hx as [Hx H45'].
        destruct (Hall x Hx) as [?|[?|?]]; congruence. }
  destruct api_key as [|c0 rest] eqn:Hkey.
  - cbn. split; [discriminate|]. intros [Hlen _]. simpl in Hlen. lia.
  - rewrite <- Hkey in *. cbn [orb].
    replace (match api_key with [] => true | _ :: _ => false end)
      with false by now rewrite Hkey.
    cbn [orb].
    destruct (length api_key <? 20)%nat eqn:Hlen.
    + apply Nat.ltb_lt in Hlen. split; [discriminate|]. intros [? _]. lia.
    + apply Nat.ltb_ge in Hlen. rewrite Hcore. tauto.
Qed.

Example validate_api_key_sample :
  @Utils.validate_api_key Utils.ascii_chars Utils.sample_key = true
  /\ @Utils.validate_api_key Utils.ascii_chars (replicate 20 45%N) = false.
Proof. split; reflexivity. Qed.

(** ** The reply of the vision model *)

Lemma py_lstrip_spaces `{Unicode} (spaces rest : list N) :
  Forall (fun c => char_isspace c = true) spaces ->
  py_lstrip (spaces ++ rest) = py_lstrip rest.
Proof.
  induction 1 as [|c spaces Hc _ IH]; [reflexivity|].
  simpl. now rewrite Hc.
Qed.

Lemma py_rstrip_spaces `{Unicode} (rest spaces : list N) :
  Forall (fun c => char_isspace c = true) spaces ->
  py_rstrip (rest ++ spaces) = py_rstrip rest.
Proof.
  intros Hsp. unfold py_rstrip. rewrite rev_app_distr.
  rewrite py_lstrip_spaces; [reflexivity|].
  apply Forall_forall. intros c Hc. apply list_elem_of_In, in_rev in Hc.
  rewrite Forall_forall in Hsp. now apply Hsp, list_elem_of_In.
Qed.

Lemma py_lstrip_app `{Unicode} (s t : list N) (c : N) :
  char_isspace c = false ->
  py_lstrip (s ++ c :: t) = py_lstrip s ++ c :: t.
Proof.
  intros Hc. induction s as [|x s IH]; simpl.
  - now rewrite Hc.
  - destruct (char_isspace x); [exact IH|reflexivity].
Qed.

Lemma py_rstrip_app `{Unicode} (s t : list N) (c : N) :
  char_isspace c = false ->
  py_rstrip (s ++ c :: t) = s ++ c :: py_rstrip t.
Proof.
  intros Hc. unfold py_rstrip.
  rewrite rev_app_distr. simpl. rewrite <- app_assoc. simpl.
  rewrite py_lstrip_app by exact Hc.
  rewrite rev_app_distr. simpl. rewrite rev_involutive.
  now rewrite <- app_assoc.
Qed.

Lemma py_rstrip_fence `{Unicode} :
  char_isspace 96 = false -> py_rstrip fence = fence.
Proof. intros H96. unfold py_rstrip, fence. simpl. now rewrite H96. Qed.

(** X21. A reply wrapped in a [json] code fence, with white space around
    the fence, is reduced to the text inside the fence with its own leading
    and trailing white space removed, provided that text does not start with
    a backquote. *)
Theorem strip_code_fence_json `{Unicode} (before after rest : list N)
    (c : N) :
  char_isspace 96 = false ->
  Forall (fun x => char_isspace x = true) before ->
  Forall (fun x => char_isspace x = true) after ->
  c <> 96%N ->
  strip_code_fence (before ++ fence_json ++ (c :: rest) ++ fence ++ after)
  = py_strip (c :: rest).
Proof.
  intros H96 Hbefore Hafter Hc. unfold strip_code_fence.
  assert (py_strip (before ++ fence_json ++ (c :: rest) ++ fence ++ after)
          = fence_json ++ (c :: rest) ++ fence) as ->.
  { unfold py_strip. rewrite py_lstrip_spaces by exact Hbefore.
    unfold fence_json at 1. cbn [app py_lstrip]. rewrite H96.
    change (96 :: 96 :: 96 :: 106 :: 115 :: 111 :: 110 :: c :: rest
            ++ fence ++ after)%N
      with ((fence_json ++ c :: rest) ++ 96%N :: [96; 96]%N ++ after).
    rewrite py_rstrip_app by exact H96.
    replace (py_rstrip ([96; 96]%N ++ after)) with [96; 96]%N.
    - unfold fence. now rewrite <- app_assoc.
    - change ([96; 96]%N ++ after) with ([96%N] ++ 96%N :: after).
      rewrite py_rstrip_app by exact H96.
      replace (py_rstrip after) with (@nil N); [reflexivity|].
      rewrite <- (app_nil_l after), py_rstrip_spaces by exact Hafter.
      reflexivity. }
  assert (startswith (fence_json ++ (c :: rest) ++ fence) fence_json = true)
    as ->.
  { unfold startswith. apply bool_decide_eq_true. reflexivity. }
  change (drop 7 (fence_json ++ (c :: rest) ++ fence))
    with ((c :: rest) ++ fence).
  assert (startswith ((c :: rest) ++ fence) fence = false) as ->.
  { unfold startswith. apply bool_decide_eq_false. intros Heq.
    cbn in Heq. injection Heq as Heq _. congruence. }
  assert (endswith ((c :: rest) ++ fence) fence = true) as ->.
  { unfold endswith. apply bool_decide_eq_true.
    rewrite length_app.
    replace (length (c :: rest) + length fence - length fence)%nat
      with (length (c :: rest)) by lia.
    now rewrite drop_app_length. }
  rewrite length_app.
  replace (length (c :: rest) + length fence - 3)%nat
    with (length (c :: rest)) by (cbn; lia).
  now rewrite take_app_length.
Qed.

Lemma strip_code_fence_json_witness :
  @strip_code_fence Utils.ascii_chars
    ([10%N] ++ fence_json ++ (10%N :: [123; 125; 10]%N) ++ fence ++ [32%N])
  = @py_strip Utils.ascii_chars (10%N :: [123; 125; 10]%N).
Proof.
  apply (@strip_code_fence_json Utils.ascii_chars [10%N] [32%N]
           [123; 125; 10]%N 10%N).
  - reflexivity.
  - repeat constructor.
  - repeat constructor.
  - discriminate.
Defined.
